(** * SharedZoneTestContext: the shared-zone fixture of the VinylDNS
      functional tests

    A shallow embedding of
    [modules/api/functional_test/live_tests/shared_zone_test_context.py].

    The fixture talks to a remote VinylDNS service through two
    [VinylDNSClient]s.  Every client call, helper call and [time.sleep] is
    a node of a small free monad [prog]; a [handler] over an arbitrary
    world type answers the calls, and [run] threads the world, the Python
    exceptions and the trace of calls made.  The Python values that travel
    over the wire (JSON dictionaries, lists, strings) are the type
    [value]. *)

From Stdlib Require Import ZArith String List Bool Lia QArith.
From Equations Require Import Equations.
From Equations.Prop Require Import Logic.
Import ListNotations.

#[local] Set Warnings "-register-all".

Local Open Scope string_scope.
Local Open Scope list_scope.
Local Open Scope Z_scope.

(** ** Python values *)

Module Py.

(** JSON-shaped Python objects.  A dict is kept as the list of its items
    in insertion order; its keys are strings, as in every dict of the
    source and of a decoded JSON body. *)
Inductive value : Type :=
| VNone
| VBool (b : bool)
| VInt (z : Z)
| VStr (s : string)
| VList (l : list value)
| VDict (d : list (string * value)).

(** The exceptions the fixture can meet. *)
Inductive exn : Type :=
| KeyError (key : string)
| TypeError
| AssertionError
| RemoteError (info : string).

Fixpoint lookup (k : string) (d : list (string * value)) : option value :=
  match d with
  | [] => None
  | (k', v) :: d' => if String.eqb k k' then Some v else lookup k d'
  end.

(** [a == b].  [True == 1] holds in Python; lists compare pointwise, dicts
    by size and by the value under every key. *)
Fixpoint value_eqb (a b : value) {struct a} : bool :=
  match a, b with
  | VNone, VNone => true
  | VBool x, VBool y => Bool.eqb x y
  | VBool x, VInt y => Z.b2z x =? y
  | VInt x, VBool y => x =? Z.b2z y
  | VInt x, VInt y => x =? y
  | VStr x, VStr y => String.eqb x y
  | VList xs, VList ys =>
      (fix go (xs ys : list value) {struct xs} : bool :=
         match xs, ys with
         | [], [] => true
         | x :: xs', y :: ys' => value_eqb x y && go xs' ys'
         | _, _ => false
         end) xs ys
  | VDict d, VDict e =>
      (length d =? length e)%nat &&
      (fix all (d : list (string * value)) {struct d} : bool :=
         match d with
         | [] => true
         | (k, v) :: d' =>
             match lookup k e with
             | Some w => value_eqb v w
             | None => false
             end && all d'
         end) d
  | _, _ => false
  end.

(** [obj[key]] with a string key. *)
Definition getitem (obj : value) (key : string) : exn + value :=
  match obj with
  | VDict d =>
      match lookup key d with
      | Some v => inr v
      | None => inl (KeyError key)
      end
  | _ => inl TypeError
  end.

(** [len(obj)]. *)
Definition len (obj : value) : exn + Z :=
  match obj with
  | VList l => inr (Z.of_nat (List.length l))
  | VDict d => inr (Z.of_nat (List.length d))
  | VStr s => inr (Z.of_nat (String.length s))
  | _ => inl TypeError
  end.

Fixpoint substring_of (t s : string) : bool :=
  String.prefix t s ||
  match s with
  | EmptyString => false
  | String _ s' => substring_of t s'
  end.

(** [x in container]: membership by [x == e] in a list, key membership in
    a dict (an unhashable [x] raises), substring test in a string. *)
Definition contains (container x : value) : exn + bool :=
  match container with
  | VList l => inr (existsb (fun e => value_eqb x e) l)
  | VDict d =>
      match x with
      | VList _ | VDict _ => inl TypeError
      | VStr k => inr (match lookup k d with Some _ => true | None => false end)
      | _ => inr false
      end
  | VStr s =>
      match x with
      | VStr t => inr (substring_of t s)
      | _ => inl TypeError
      end
  | _ => inl TypeError
  end.

End Py.
Import Py.

(** ** The remote interface *)

(** [VinylDNSClient(url, access_key, secret_key)]. *)
Record VinylDNSClient : Type := {
  client_url : value;
  access_key : string;
  secret_key : string
}.

(** The calls that leave the fixture: the methods of [VinylDNSClient] it
    uses, the bulk helpers of [utils] and [time.sleep].  [status] is the
    status code the caller asks the client to insist on. *)
Inductive call : Type :=
| GetGroup (c : VinylDNSClient) (group_id : value) (status : Z)
| ListAllMyGroups (c : VinylDNSClient) (status : Z)
| CreateGroup (c : VinylDNSClient) (group : value) (status : Z)
| UpdateGroup (c : VinylDNSClient) (group_id : value) (group : value) (status : Z)
| CreateZone (c : VinylDNSClient) (zone : value) (status : Z)
| WaitUntilZoneExists (c : VinylDNSClient) (zone_change : value)
| ListZones (c : VinylDNSClient)
| ClearZones (c : VinylDNSClient)
| ClearGroups (c : VinylDNSClient) (exclude : list value)
| Sleep (seconds : Q).

(** What comes back: a status code with a decoded body, or an exception
    raised inside the client or helper. *)
Inductive reply : Type :=
| Reply (code : Z) (body : value)
| Fault (e : exn).

Definition expected_status (c : call) : option Z :=
  match c with
  | GetGroup _ _ s | ListAllMyGroups _ s | CreateGroup _ _ s
  | UpdateGroup _ _ _ s | CreateZone _ _ s => Some s
  | _ => None
  end.

(** ** Programs *)

Inductive prog (A : Type) : Type :=
| Ret (a : A)
| Raise (e : exn)
| Call (c : call) (k : reply -> prog A).

Arguments Ret {A} a.
Arguments Raise {A} e.
Arguments Call {A} c k.

Fixpoint bind {A B : Type} (p : prog A) (f : A -> prog B) : prog B :=
  match p with
  | Ret a => f a
  | Raise e => Raise e
  | Call c k => Call c (fun r => bind (k r) f)
  end.

(** [try: p  except: h]. *)
Fixpoint try_except {A : Type} (p : prog A) (h : exn -> prog A) : prog A :=
  match p with
  | Ret a => Ret a
  | Raise e => h e
  | Call c k => Call c (fun r => try_except (k r) h)
  end.

Declare Scope prog_scope.
Delimit Scope prog_scope with prog.
Notation "x <- p ;; q" := (bind p (fun x => q))
  (at level 61, p at next level, right associativity) : prog_scope.
Notation "p ;; q" := (bind p (fun _ => q))
  (at level 61, right associativity) : prog_scope.
Local Open Scope prog_scope.

Definition lift {A : Type} (r : exn + A) : prog A :=
  match r with
  | inl e => Raise e
  | inr a => Ret a
  end.

(** [assert_that(actual, is_(expected))] on integers and on booleans. *)
Definition assert_that_is (actual expected : Z) : prog unit :=
  if actual =? expected then Ret tt else Raise AssertionError.

Definition assert_that_is_bool (actual expected : bool) : prog unit :=
  if Bool.eqb actual expected then Ret tt else Raise AssertionError.

(** Modelled from the spec: the methods of [VinylDNSClient] (module
    [vinyldns_python], not part of the sources at hand).  A method sends
    its request, lets an exception of the transport through, insists on
    the status code it was given ("expects HTTP-style status 200",
    "expects an accepted/pending status, e.g. 202") and hands back the
    decoded body. *)
Definition request (c : call) : prog value :=
  Call c (fun r =>
    match r with
    | Fault e => Raise e
    | Reply code body =>
        match expected_status c with
        | Some s => assert_that_is code s ;; Ret body
        | None => Ret body
        end
    end).

(** ** Running a program against a world *)

Definition event : Type := (call * reply)%type.
Definition trace : Type := list event.

Definition handler (W : Type) : Type := call -> W -> reply * W.

Record outcome (W A : Type) : Type := Outcome {
  result : exn + A;
  final : W;
  calls : trace
}.

Arguments Outcome {W A} result final calls.
Arguments result {W A} o.
Arguments final {W A} o.
Arguments calls {W A} o.

(** The outcome [o] of the rest of a program, after the call of [ev]. *)
Definition after {W A : Type} (ev : event) (o : outcome W A) : outcome W A :=
  Outcome (result o) (final o) (ev :: calls o).

Fixpoint run {W A : Type} (h : handler W) (p : prog A) (w : W) : outcome W A :=
  match p with
  | Ret a => Outcome (inr a) w []
  | Raise e => Outcome (inl e) w []
  | Call c k =>
      let (r, w') := h c w in
      after (c, r) (run h (k r) w')
  end.

(** ** The fixture *)

(** A helper of [utils], a wait or a sleep: the value that comes back is
    not looked at, an exception goes through. *)
Definition perform (c : call) : prog unit :=
  Call c (fun r =>
    match r with
    | Fault e => Raise e
    | Reply _ _ => Ret tt
    end).

Definition get_group (c : VinylDNSClient) (group_id : value) (status : Z) :=
  request (GetGroup c group_id status).
Definition list_all_my_groups (c : VinylDNSClient) (status : Z) :=
  request (ListAllMyGroups c status).
Definition create_group (c : VinylDNSClient) (group : value) (status : Z) :=
  request (CreateGroup c group status).
Definition update_group (c : VinylDNSClient) (group_id group : value) (status : Z) :=
  request (UpdateGroup c group_id group status).
Definition create_zone (c : VinylDNSClient) (zone : value) (status : Z) :=
  request (CreateZone c zone status).
Definition list_zones (c : VinylDNSClient) :=
  request (ListZones c).
Definition wait_until_zone_exists (c : VinylDNSClient) (zone_change : value) :=
  perform (WaitUntilZoneExists c zone_change).
Definition clear_zones (c : VinylDNSClient) :=
  perform (ClearZones c).
Definition clear_groups (c : VinylDNSClient) (exclude : list value) :=
  perform (ClearGroups c exclude).
(** [time.sleep(seconds)] returns [None] once the time has passed. *)
Definition time_sleep (seconds : Q) : prog unit :=
  Call (Sleep seconds) (fun _ => Ret tt).

(** The class attributes of [vinyldns_context.VinylDNSTestContext] the
    fixture reads. *)
Record TestContext : Type := {
  vinyldns_url : value;
  dns_key_name : value;
  dns_key : value;
  dns_ip : value
}.

(** The attributes of a [SharedZoneTestContext].  The zone attributes do
    not exist until they are assigned. *)
Record SharedZoneTestContext : Type := {
  ok_vinyldns_client : VinylDNSClient;
  dummy_vinyldns_client : VinylDNSClient;
  dummy_group : value;
  ok_group : value;
  ok_zone : option value;
  dummy_zone : option value;
  ip6_reverse_zone : option value;
  ip4_reverse_zone : option value;
  classless_base_zone : option value;
  classless_zone_delegation_zone : option value;
  system_test_zone : option value;
  parent_zone : option value
}.

(** [tear_down]: it reads the two client attributes only. *)
Definition tear_down (self : SharedZoneTestContext) : prog unit :=
  clear_zones (dummy_vinyldns_client self) ;;
  clear_zones (ok_vinyldns_client self) ;;
  clear_groups (dummy_vinyldns_client self) [] ;;
  clear_groups (ok_vinyldns_client self) [VStr "ok"] ;;
  let ok_group := VDict [
    ("id", VStr "ok");
    ("name", VStr "ok");
    ("email", VStr "test@test.com");
    ("description", VStr "this is a description");
    ("members", VList [VDict [("id", VStr "ok")]]);
    ("admins", VList [VDict [("id", VStr "ok")]])
  ] in
  group_id <- lift (getitem ok_group "id") ;;
  update_group (ok_vinyldns_client self) group_id ok_group 200 ;;
  Ret tt.

(** The [while] loop of [confirm_member_in_group]; [retries] counts
    down, which is what ends it. *)
Equations? confirm_loop (client : VinylDNSClient) (group : value)
    (retries : Z) (success : bool) : prog bool
    by wf (Z.to_nat (retries + 1)) lt :=
  confirm_loop client group retries success
    with inspect ((retries >=? 0) && negb success) => {
    | exist _ true more =>
        listing <- list_all_my_groups client 200 ;;
        success' <- lift (contains listing group) ;;
        time_sleep (5 # 100) ;;
        confirm_loop client group (retries - 1) success'
    | exist _ false _ => Ret success }.
Proof. apply andb_prop in more. lia. Qed.

Definition confirm_member_in_group (client : VinylDNSClient) (group : value)
  : prog unit :=
  let retries := 2 in
  listing <- list_all_my_groups client 200 ;;
  success <- lift (contains listing group) ;;
  success <- confirm_loop client group retries success ;;
  assert_that_is_bool success true.

Section Fixture.

Variable VinylDNSTestContext : TestContext.

(** The statements of [__init__] before its [try]: the two clients and
    the two group attributes, still [None]. *)
Definition new_context : SharedZoneTestContext := {|
  ok_vinyldns_client :=
    {| client_url := vinyldns_url VinylDNSTestContext;
       access_key := "okAccessKey"; secret_key := "okSecretKey" |};
  dummy_vinyldns_client :=
    {| client_url := vinyldns_url VinylDNSTestContext;
       access_key := "dummyAccessKey"; secret_key := "dummySecretKey" |};
  dummy_group := VNone;
  ok_group := VNone;
  ok_zone := None;
  dummy_zone := None;
  ip6_reverse_zone := None;
  ip4_reverse_zone := None;
  classless_base_zone := None;
  classless_zone_delegation_zone := None;
  system_test_zone := None;
  parent_zone := None
|}.

(** The [try] block of [__init__].  An attribute assigned on the way is a
    binding here, and the object is put together at the end: it is handed
    to the caller only when the block has run to its end. *)
Definition try_block (self : SharedZoneTestContext) : prog SharedZoneTestContext :=
  ok_group <- get_group (ok_vinyldns_client self) (VStr "ok") 200 ;;
  confirm_member_in_group (ok_vinyldns_client self) ok_group ;;
  let dummy_group := VDict [
    ("name", VStr "dummy-group");
    ("email", VStr "test@test.com");
    ("description", VStr "this is a description");
    ("members", VList [VDict [("id", VStr "dummy")]]);
    ("admins", VList [VDict [("id", VStr "dummy")]])
  ] in
  dummy_group <- create_group (dummy_vinyldns_client self) dummy_group 200 ;;
  confirm_member_in_group (dummy_vinyldns_client self) dummy_group ;;
  admin_group_id <- lift (getitem ok_group "id") ;;
  ok_zone_change <- create_zone (ok_vinyldns_client self)
    (VDict [
      ("name", VStr "ok.");
      ("email", VStr "test@test.com");
      ("shared", VBool false);
      ("adminGroupId", admin_group_id);
      ("connection", VDict [
        ("name", VStr "ok.");
        ("keyName", dns_key_name VinylDNSTestContext);
        ("key", dns_key VinylDNSTestContext);
        ("primaryServer", dns_ip VinylDNSTestContext)
      ]);
      ("transferConnection", VDict [
        ("name", VStr "ok.");
        ("keyName", dns_key_name VinylDNSTestContext);
        ("key", dns_key VinylDNSTestContext);
        ("primaryServer", dns_ip VinylDNSTestContext)
      ])
    ]) 202 ;;
  ok_zone <- lift (getitem ok_zone_change "zone") ;;
  admin_group_id <- lift (getitem dummy_group "id") ;;
  dummy_zone_change <- create_zone (dummy_vinyldns_client self)
    (VDict [
      ("name", VStr "dummy.");
      ("email", VStr "test@test.com");
      ("shared", VBool false);
      ("adminGroupId", admin_group_id);
      ("connection", VDict [
        ("name", VStr "dummy.");
        ("keyName", dns_key_name VinylDNSTestContext);
        ("key", dns_key VinylDNSTestContext);
        ("primaryServer", dns_ip VinylDNSTestContext)
      ]);
      ("transferConnection", VDict [
        ("name", VStr "dummy.");
        ("keyName", dns_key_name VinylDNSTestContext);
        ("key", dns_key VinylDNSTestContext);
        ("primaryServer", dns_ip VinylDNSTestContext)
      ])
    ]) 202 ;;
  dummy_zone <- lift (getitem dummy_zone_change "zone") ;;
  admin_group_id <- lift (getitem ok_group "id") ;;
  ip6_reverse_zone_change <- create_zone (ok_vinyldns_client self)
    (VDict [
      ("name", VStr "1.9.e.f.c.c.7.2.9.6.d.f.ip6.arpa.");
      ("email", VStr "test@test.com");
      ("shared", VBool true);
      ("adminGroupId", admin_group_id);
      ("connection", VDict [
        ("name", VStr "ip6.");
        ("keyName", dns_key_name VinylDNSTestContext);
        ("key", dns_key VinylDNSTestContext);
        ("primaryServer", dns_ip VinylDNSTestContext)
      ]);
      ("transferConnection", VDict [
        ("name", VStr "ip6.");
        ("keyName", dns_key_name VinylDNSTestContext);
        ("key", dns_key VinylDNSTestContext);
        ("primaryServer", dns_ip VinylDNSTestContext)
      ])
    ]) 202 ;;
  ip6_reverse_zone <- lift (getitem ip6_reverse_zone_change "zone") ;;
  admin_group_id <- lift (getitem ok_group "id") ;;
  ip4_reverse_zone_change <- create_zone (ok_vinyldns_client self)
    (VDict [
      ("name", VStr "30.172.in-addr.arpa.");
      ("email", VStr "test@test.com");
      ("shared", VBool true);
      ("adminGroupId", admin_group_id);
      ("connection", VDict [
        ("name", VStr "ip4.");
        ("keyName", dns_key_name VinylDNSTestContext);
        ("key", dns_key VinylDNSTestContext);
        ("primaryServer", dns_ip VinylDNSTestContext)
      ]);
      ("transferConnection", VDict [
        ("name", VStr "ip4.");
        ("keyName", dns_key_name VinylDNSTestContext);
        ("key", dns_key VinylDNSTestContext);
        ("primaryServer", dns_ip VinylDNSTestContext)
      ])
    ]) 202 ;;
  ip4_reverse_zone <- lift (getitem ip4_reverse_zone_change "zone") ;;
  admin_group_id <- lift (getitem ok_group "id") ;;
  classless_base_zone_change <- create_zone (ok_vinyldns_client self)
    (VDict [
      ("name", VStr "2.0.192.in-addr.arpa.");
      ("email", VStr "test@test.com");
      ("shared", VBool false);
      ("adminGroupId", admin_group_id);
      ("connection", VDict [
        ("name", VStr "classless-base.");
        ("keyName", dns_key_name VinylDNSTestContext);
        ("key", dns_key VinylDNSTestContext);
        ("primaryServer", dns_ip VinylDNSTestContext)
      ]);
      ("transferConnection", VDict [
        ("name", VStr "classless-base.");
        ("keyName", dns_key_name VinylDNSTestContext);
        ("key", dns_key VinylDNSTestContext);
        ("primaryServer", dns_ip VinylDNSTestContext)
      ])
    ]) 202 ;;
  classless_base_zone <- lift (getitem classless_base_zone_change "zone") ;;
  admin_group_id <- lift (getitem ok_group "id") ;;
  classless_zone_delegation_change <- create_zone (ok_vinyldns_client self)
    (VDict [
      ("name", VStr "192/30.2.0.192.in-addr.arpa.");
      ("email", VStr "test@test.com");
      ("shared", VBool false);
      ("adminGroupId", admin_group_id);
      ("connection", VDict [
        ("name", VStr "classless.");
        ("keyName", dns_key_name VinylDNSTestContext);
        ("key", dns_key VinylDNSTestContext);
        ("primaryServer", dns_ip VinylDNSTestContext)
      ]);
      ("transferConnection", VDict [
        ("name", VStr "classless.");
        ("keyName", dns_key_name VinylDNSTestContext);
        ("key", dns_key VinylDNSTestContext);
        ("primaryServer", dns_ip VinylDNSTestContext)
      ])
    ]) 202 ;;
  classless_zone_delegation_zone <- lift (getitem classless_zone_delegation_change "zone") ;;
  admin_group_id <- lift (getitem ok_group "id") ;;
  system_test_zone_change <- create_zone (ok_vinyldns_client self)
    (VDict [
      ("name", VStr "system-test.");
      ("email", VStr "test@test.com");
      ("shared", VBool true);
      ("adminGroupId", admin_group_id);
      ("connection", VDict [
        ("name", VStr "system-test.");
        ("keyName", dns_key_name VinylDNSTestContext);
        ("key", dns_key VinylDNSTestContext);
        ("primaryServer", dns_ip VinylDNSTestContext)
      ]);
      ("transferConnection", VDict [
        ("name", VStr "system-test.");
        ("keyName", dns_key_name VinylDNSTestContext);
        ("key", dns_key VinylDNSTestContext);
        ("primaryServer", dns_ip VinylDNSTestContext)
      ])
    ]) 202 ;;
  system_test_zone <- lift (getitem system_test_zone_change "zone") ;;
  (* parent zone gives access to the dummy user, dummy user cannot manage
     ns records *)
  admin_group_id <- lift (getitem ok_group "id") ;;
  parent_zone_change <- create_zone (ok_vinyldns_client self)
    (VDict [
      ("name", VStr "parent.com.");
      ("email", VStr "test@test.com");
      ("shared", VBool false);
      ("adminGroupId", admin_group_id);
      ("acl", VDict [
        ("rules", VList [
          VDict [
            ("accessLevel", VStr "Delete");
            ("description", VStr "some_test_rule");
            ("userId", VStr "dummy")
          ]
        ])
      ]);
      ("connection", VDict [
        ("name", VStr "parent.");
        ("keyName", dns_key_name VinylDNSTestContext);
        ("key", dns_key VinylDNSTestContext);
        ("primaryServer", dns_ip VinylDNSTestContext)
      ]);
      ("transferConnection", VDict [
        ("name", VStr "parent.");
        ("keyName", dns_key_name VinylDNSTestContext);
        ("key", dns_key VinylDNSTestContext);
        ("primaryServer", dns_ip VinylDNSTestContext)
      ])
    ]) 202 ;;
  parent_zone <- lift (getitem parent_zone_change "zone") ;;
  (* wait until our zones are created *)
  wait_until_zone_exists (ok_vinyldns_client self) system_test_zone_change ;;
  wait_until_zone_exists (ok_vinyldns_client self) ok_zone_change ;;
  wait_until_zone_exists (dummy_vinyldns_client self) dummy_zone_change ;;
  wait_until_zone_exists (ok_vinyldns_client self) ip6_reverse_zone_change ;;
  wait_until_zone_exists (ok_vinyldns_client self) ip4_reverse_zone_change ;;
  wait_until_zone_exists (ok_vinyldns_client self) classless_base_zone_change ;;
  wait_until_zone_exists (ok_vinyldns_client self) classless_zone_delegation_change ;;
  wait_until_zone_exists (ok_vinyldns_client self) system_test_zone_change ;;
  wait_until_zone_exists (ok_vinyldns_client self) parent_zone_change ;;
  (* validate all in there *)
  listing <- list_zones (dummy_vinyldns_client self) ;;
  zones <- lift (getitem listing "zones") ;;
  n <- lift (len zones) ;;
  assert_that_is n 2 ;;
  listing <- list_zones (ok_vinyldns_client self) ;;
  zones <- lift (getitem listing "zones") ;;
  n <- lift (len zones) ;;
  assert_that_is n 7 ;;
  Ret {|
    ok_vinyldns_client := ok_vinyldns_client self;
    dummy_vinyldns_client := dummy_vinyldns_client self;
    dummy_group := dummy_group;
    ok_group := ok_group;
    ok_zone := Some ok_zone;
    dummy_zone := Some dummy_zone;
    ip6_reverse_zone := Some ip6_reverse_zone;
    ip4_reverse_zone := Some ip4_reverse_zone;
    classless_base_zone := Some classless_base_zone;
    classless_zone_delegation_zone := Some classless_zone_delegation_zone;
    system_test_zone := Some system_test_zone;
    parent_zone := Some parent_zone
  |}.

(** [except:] of [__init__]: teardown if there was any issue in setup,
    whatever that teardown raises is dropped, and the bare [raise] raises
    again the exception the clause is handling. *)
Definition except_block (self : SharedZoneTestContext) (e : exn)
  : prog SharedZoneTestContext :=
  try_except (tear_down self) (fun _ => Ret tt) ;;
  Raise e.

Definition __init__ : prog SharedZoneTestContext :=
  let self := new_context in
  tear_down self ;; (* ensures that the environment is clean before starting *)
  try_except (try_block self) (except_block self).

End Fixture.

(** ** A model of the remote service *)

Module Service.

(** Modelled from the spec: the remote zone-management service and the
    bulk helpers [clear_zones] and [clear_groups] of [utils], none of
    which is part of the sources at hand.  The service keeps the groups
    and the zones, each with the identity that created it ("owned by
    whichever identity created it").  A group is visible to its owner and
    to its members; a zone is visible to its owner and to every identity
    an access rule of the zone names.  Creating a zone needs the caller
    in the member set of the owning group.  The helpers "delete all
    zones/groups visible to client, optionally excluding named groups by
    id".  Zone creation answers with the accepted/pending status and a
    change record that carries the zone as it was asked for, with its
    identifier; the zone is there from then on, so the wait for it
    returns at once. *)
Record world : Type := {
  groups : list (string * value);
  zones : list (string * value);
  next_id : Z;
  slept : Q
}.

(** The identity behind a pair of credentials. *)
Definition user_of (c : VinylDNSClient) : option string :=
  if String.eqb (access_key c) "okAccessKey" && String.eqb (secret_key c) "okSecretKey"
  then Some "ok"
  else if String.eqb (access_key c) "dummyAccessKey" && String.eqb (secret_key c) "dummySecretKey"
  then Some "dummy"
  else None.

Definition field (obj : value) (key : string) : value :=
  match getitem obj key with
  | inr v => v
  | inl _ => VNone
  end.

Definition items (obj : value) : list value :=
  match obj with
  | VList l => l
  | _ => []
  end.

Definition names_user (user : string) (entry : value) : bool :=
  value_eqb (field entry "id") (VStr user).

Definition is_member (user : string) (group : value) : bool :=
  existsb (names_user user) (items (field group "members")).

Definition group_visible (user : string) (g : string * value) : bool :=
  String.eqb (fst g) user || is_member user (snd g).

Definition rule_names (user : string) (rule : value) : bool :=
  value_eqb (field rule "userId") (VStr user).

Definition zone_visible (user : string) (z : string * value) : bool :=
  String.eqb (fst z) user
  || existsb (rule_names user) (items (field (field (snd z) "acl") "rules")).

Definition has_id (id : value) (entry : string * value) : bool :=
  value_eqb (field (snd entry) "id") id.

Definition excluded (exclude : list value) (g : string * value) : bool :=
  existsb (fun e => value_eqb e (field (snd g) "id")) exclude.

Definition with_id (id : value) (obj : list (string * value)) : value :=
  match lookup "id" obj with
  | Some _ => VDict obj
  | None => VDict (("id", id) :: obj)
  end.

Definition set_groups (gs : list (string * value)) (w : world) : world :=
  {| groups := gs; zones := zones w; next_id := next_id w; slept := slept w |}.

Definition set_zones (zs : list (string * value)) (w : world) : world :=
  {| groups := groups w; zones := zs; next_id := next_id w; slept := slept w |}.

Definition fresh (w : world) : world :=
  {| groups := groups w; zones := zones w; next_id := next_id w + 1; slept := slept w |}.

Definition client_of (c : call) : option VinylDNSClient :=
  match c with
  | GetGroup c _ _ | ListAllMyGroups c _ | CreateGroup c _ _
  | UpdateGroup c _ _ _ | CreateZone c _ _ | WaitUntilZoneExists c _
  | ListZones c | ClearZones c | ClearGroups c _ => Some c
  | Sleep _ => None
  end.

(** Modelled from the spec: what the service, and the helpers of [utils]
    on top of it, answer to a call of the identity [user] (section 6 of
    the spec, with the data model of its section 3). *)
Definition serve (user : string) (c : call) (w : world) : reply * world :=
  match c with
  | GetGroup _ id _ =>
      match find (has_id id) (groups w) with
      | Some g => (Reply 200 (snd g), w)
      | None => (Reply 404 VNone, w)
      end
  | ListAllMyGroups _ _ =>
      (Reply 200 (VList (map snd (filter (group_visible user) (groups w)))), w)
  | CreateGroup _ (VDict d) _ =>
      let g := with_id (VInt (next_id w)) d in
      if existsb (has_id (field g "id")) (groups w) then (Reply 409 VNone, w)
      else (Reply 200 g, fresh (set_groups (groups w ++ [(user, g)]) w))
  | CreateGroup _ _ _ => (Reply 400 VNone, w)
  | UpdateGroup _ id g _ =>
      if existsb (has_id id) (groups w)
      then (Reply 200 g,
            set_groups (map (fun e => if has_id id e then (fst e, g) else e) (groups w)) w)
      else (Reply 404 VNone, w)
  | CreateZone _ (VDict d) _ =>
      match find (has_id (field (VDict d) "adminGroupId")) (groups w) with
      | Some g =>
          if is_member user (snd g) then
            let z := VDict (("id", VInt (next_id w)) :: d) in
            (Reply 202 (VDict [("zone", z);
                               ("changeId", VInt (next_id w + 1));
                               ("status", VStr "Pending")]),
             fresh (fresh (set_zones (zones w ++ [(user, z)]) w)))
          else (Reply 403 VNone, w)
      | None => (Reply 400 VNone, w)
      end
  | CreateZone _ _ _ => (Reply 400 VNone, w)
  | WaitUntilZoneExists _ change =>
      if existsb (has_id (field (field change "zone") "id")) (zones w)
      then (Reply 200 VNone, w)
      else (Fault (RemoteError "zone did not appear"), w)
  | ListZones _ =>
      (Reply 200 (VDict [("zones", VList (map snd (filter (zone_visible user) (zones w))))]), w)
  | ClearZones _ =>
      (Reply 200 VNone,
       set_zones (filter (fun z => negb (zone_visible user z)) (zones w)) w)
  | ClearGroups _ exclude =>
      (Reply 200 VNone,
       set_groups (filter (fun g => negb (group_visible user g) || excluded exclude g)
                          (groups w)) w)
  | Sleep seconds =>
      (Reply 200 VNone,
       {| groups := groups w; zones := zones w; next_id := next_id w;
          slept := Qred (slept w + seconds) |})
  end.

(** Modelled from the spec: the service behind the credentials of the
    two identities; other credentials are turned away, and [time.sleep]
    lets the time pass. *)
Definition service : handler world := fun c w =>
  match client_of c with
  | Some client =>
      match user_of client with
      | Some user => serve user c w
      | None => (Reply 401 VNone, w)
      end
  | None => serve "" c w
  end.

(** The canonical group as the seed of the service has it, and as
    [tear_down] resets it. *)
Definition canonical_group : value := VDict [
  ("id", VStr "ok");
  ("name", VStr "ok");
  ("email", VStr "test@test.com");
  ("description", VStr "this is a description");
  ("members", VList [VDict [("id", VStr "ok")]]);
  ("admins", VList [VDict [("id", VStr "ok")]])
].

Definition baseline : world :=
  {| groups := [("ok", canonical_group)]; zones := []; next_id := 0; slept := 0 |}.

(** What the four clears of [tear_down] leave of a world, and what its
    update then makes of a group. *)
Definition cleared (w : world) : world :=
  {| groups :=
       filter (fun g => negb (group_visible "ok" g) || excluded [VStr "ok"] g)
         (filter (fun g => negb (group_visible "dummy" g) || excluded [] g) (groups w));
     zones :=
       filter (fun z => negb (zone_visible "ok" z))
         (filter (fun z => negb (zone_visible "dummy" z)) (zones w));
     next_id := next_id w;
     slept := slept w |}.

Definition reset (g : string * value) : string * value :=
  if has_id (VStr "ok") g then (fst g, canonical_group) else g.

Definition restored (w : world) : world :=
  set_groups (map reset (groups (cleared w))) (cleared w).

(** The state a teardown is to leave: no zone that either identity owns
    or sees, no group that either identity owns but the one with the
    canonical id, that one present, with the primary identity as its only
    member and its only admin. *)
Definition at_baseline (w : world) : Prop :=
  (forall z, In z (zones w) ->
     fst z <> "ok" /\ fst z <> "dummy" /\
     zone_visible "ok" z = false /\ zone_visible "dummy" z = false) /\
  (forall g, In g (groups w) -> fst g = "ok" \/ fst g = "dummy" ->
     field (snd g) "id" = VStr "ok") /\
  (forall g, In g (groups w) -> has_id (VStr "ok") g = true ->
     field (snd g) "members" = VList [VDict [("id", VStr "ok")]] /\
     field (snd g) "admins" = VList [VDict [("id", VStr "ok")]]) /\
  (exists g, In g (groups w) /\ has_id (VStr "ok") g = true).

End Service.

(** A test double that answers the calls from a script, one reply per
    call, and faults once the script has run out. *)
Definition scripted : handler (list reply) := fun _ script =>
  match script with
  | r :: script' => (r, script')
  | [] => (Fault (RemoteError "no reply left"), [])
  end.

Definition sample_context : TestContext :=
  {| vinyldns_url := VStr "http://localhost:9000";
     dns_key_name := VStr "vinyldns.";
     dns_key := VStr "nzisn+4G2ldMn0q1CV3vsg==";
     dns_ip := VStr "127.0.0.1:19001" |}.


(** ** What a trace shows *)

Definition is_listing (c : call) : bool :=
  match c with ListAllMyGroups _ _ => true | _ => false end.

Definition is_sleep (c : call) : bool :=
  match c with Sleep _ => true | _ => false end.

Definition is_creation (c : call) : bool :=
  match c with CreateZone _ _ _ => true | _ => false end.

Definition is_wait (c : call) : bool :=
  match c with WaitUntilZoneExists _ _ => true | _ => false end.

Definition is_zone_listing (c : call) : bool :=
  match c with ListZones _ => true | _ => false end.

Definition is_cleanup (c : call) : bool :=
  match c with
  | ClearZones _ | ClearGroups _ _ | UpdateGroup _ _ _ _ => true
  | _ => false
  end.

(** The calls of the group phase of the setup. *)
Definition is_group_call (c : call) : bool :=
  match c with
  | GetGroup _ _ _ | CreateGroup _ _ _ | ListAllMyGroups _ _ | Sleep _ => true
  | _ => false
  end.

Definition select (p : call -> bool) (t : trace) : trace :=
  filter (fun ev => p (fst ev)) t.

Definition issued (t : trace) : list call := map fst t.

Definition listings (t : trace) : nat := length (select is_listing t).

Definition polls (c : call) : Prop := is_listing c = true \/ is_sleep c = true.

(** Every call a program can make satisfies [P]. *)
Inductive issues {A : Type} (P : call -> Prop) : prog A -> Prop :=
| issues_ret (a : A) : issues P (Ret a)
| issues_raise (e : exn) : issues P (Raise e)
| issues_call (c : call) (k : reply -> prog A) :
    P c -> (forall r, issues P (k r)) -> issues P (Call c k).

(** What one evaluation of the membership predicate saw: the reply to a
    [list_all_my_groups] that passed the status check, tested for
    [group]. *)
Definition observed (group : value) (ev : event) : option bool :=
  match ev with
  | (ListAllMyGroups _ status, Reply code body) =>
      if code =? status then
        match contains body group with
        | inr b => Some b
        | inl _ => None
        end
      else None
  | _ => None
  end.

(** The poller as the claim has it: the evaluation that sees the group is
    the last thing that happens. *)
Definition returns_at_once (group : value) (t : trace) : Prop :=
  forall t1 ev t2, t = t1 ++ ev :: t2 -> observed group ev = Some true -> t2 = [].

(** The poller as the code has it, as a grammar of its traces.  The
    first evaluation ends the run when it sees the group or raises, and is
    followed at once by the retries when it does not.  Every retry that
    evaluates the predicate is followed by one sleep of 50 ms, whatever it
    saw; nothing follows that sleep when the retry saw the group. *)
Inductive polled (group : value) : bool -> trace -> Prop :=
| polled_out : polled group true []
| polled_raised (retry : bool) (ev : event) :
    is_listing (fst ev) = true -> observed group ev = None ->
    polled group retry [ev]
| polled_first_seen (ev : event) :
    observed group ev = Some true -> polled group false [ev]
| polled_first_unseen (ev : event) (t : trace) :
    observed group ev = Some false -> polled group true t ->
    polled group false (ev :: t)
| polled_retry (ev : event) (seen : bool) (r : reply) (t : trace) :
    observed group ev = Some seen -> (seen = true -> t = []) ->
    polled group true t ->
    polled group true (ev :: (Sleep (5 # 100), r) :: t).

(** ** The fixture zone catalog of the spec *)

Definition connection (cfg : TestContext) (name : string) : value :=
  VDict [
    ("name", VStr name);
    ("keyName", dns_key_name cfg);
    ("key", dns_key cfg);
    ("primaryServer", dns_ip cfg)
  ].

Definition catalog_zone (cfg : TestContext) (name : string) (shared : bool)
    (admin_group_id : value) (acl : list (string * value)) (conn : string) : value :=
  VDict ([("name", VStr name);
          ("email", VStr "test@test.com");
          ("shared", VBool shared);
          ("adminGroupId", admin_group_id)]
         ++ acl
         ++ [("connection", connection cfg conn);
             ("transferConnection", connection cfg conn)]).

Definition delete_rule : value :=
  VDict [
    ("accessLevel", VStr "Delete");
    ("description", VStr "some_test_rule");
    ("userId", VStr "dummy")
  ].

(** The eight rows of the catalog, with the identity that owns each. *)
Definition catalog (cfg : TestContext) (primary secondary : VinylDNSClient)
    (primary_group secondary_group : value) : list call := [
  CreateZone primary (catalog_zone cfg "ok." false primary_group [] "ok.") 202;
  CreateZone secondary (catalog_zone cfg "dummy." false secondary_group [] "dummy.") 202;
  CreateZone primary
    (catalog_zone cfg "1.9.e.f.c.c.7.2.9.6.d.f.ip6.arpa." true primary_group [] "ip6.") 202;
  CreateZone primary (catalog_zone cfg "30.172.in-addr.arpa." true primary_group [] "ip4.") 202;
  CreateZone primary
    (catalog_zone cfg "2.0.192.in-addr.arpa." false primary_group [] "classless-base.") 202;
  CreateZone primary
    (catalog_zone cfg "192/30.2.0.192.in-addr.arpa." false primary_group [] "classless.") 202;
  CreateZone primary (catalog_zone cfg "system-test." true primary_group [] "system-test.") 202;
  CreateZone primary
    (catalog_zone cfg "parent.com." false primary_group
       [("acl", VDict [("rules", VList [delete_rule])])] "parent.") 202
].

(** The replies that accept the calls [cs], with the change record of
    each. *)
Definition accepted (cs : list call) (changes : list value) : trace :=
  combine cs (map (Reply 202) changes).

(** The waits of [__init__], in the order it makes them, on the changes
    in the order it got them. *)
Definition awaited (self : SharedZoneTestContext) (changes : list value) : list call :=
  match changes with
  | [ok_zone_change; dummy_zone_change; ip6_reverse_zone_change;
     ip4_reverse_zone_change; classless_base_zone_change;
     classless_zone_delegation_change; system_test_zone_change;
     parent_zone_change] =>
      [WaitUntilZoneExists (ok_vinyldns_client self) system_test_zone_change;
       WaitUntilZoneExists (ok_vinyldns_client self) ok_zone_change;
       WaitUntilZoneExists (dummy_vinyldns_client self) dummy_zone_change;
       WaitUntilZoneExists (ok_vinyldns_client self) ip6_reverse_zone_change;
       WaitUntilZoneExists (ok_vinyldns_client self) ip4_reverse_zone_change;
       WaitUntilZoneExists (ok_vinyldns_client self) classless_base_zone_change;
       WaitUntilZoneExists (ok_vinyldns_client self) classless_zone_delegation_change;
       WaitUntilZoneExists (ok_vinyldns_client self) system_test_zone_change;
       WaitUntilZoneExists (ok_vinyldns_client self) parent_zone_change]
  | _ => []
  end.

(** The zone attributes of the fixture, in the order of the catalog. *)
Definition exposed (self : SharedZoneTestContext) : list (option value) := [
  ok_zone self; dummy_zone self; ip6_reverse_zone self; ip4_reverse_zone self;
  classless_base_zone self; classless_zone_delegation_zone self;
  system_test_zone self; parent_zone self
].

Definition zone_of (change : value) : option value :=
  match getitem change "zone" with
  | inr z => Some z
  | inl _ => None
  end.

(** The calls of [tear_down]. *)
Definition cleanup (self : SharedZoneTestContext) : list call := [
  ClearZones (dummy_vinyldns_client self);
  ClearZones (ok_vinyldns_client self);
  ClearGroups (dummy_vinyldns_client self) [];
  ClearGroups (ok_vinyldns_client self) [VStr "ok"];
  UpdateGroup (ok_vinyldns_client self) (VStr "ok") Service.canonical_group 200
].

(** A run of the [try] block that got to its end: the group phase, the
    eight creations of the catalog, each accepted, the waits, and the two
    listings that were counted. *)
Definition ready (cfg : TestContext) (self : SharedZoneTestContext) (t : trace) : Prop :=
  exists t_groups changes t_wait code1 listing1 code2 listing2 zones1 zones2
         ok_id dummy_id,
    t = t_groups
        ++ accepted (catalog cfg (ok_vinyldns_client self) (dummy_vinyldns_client self)
                             ok_id dummy_id) changes
        ++ t_wait
        ++ [(ListZones (dummy_vinyldns_client self), Reply code1 listing1);
            (ListZones (ok_vinyldns_client self), Reply code2 listing2)] /\
    Forall (fun ev => is_group_call (fst ev) = true) t_groups /\
    getitem (ok_group self) "id" = inr ok_id /\
    getitem (dummy_group self) "id" = inr dummy_id /\
    length changes = 8%nat /\
    map zone_of changes = exposed self /\
    issued t_wait = awaited self changes /\
    getitem listing1 "zones" = inr zones1 /\ len zones1 = inr 2 /\
    getitem listing2 "zones" = inr zones2 /\ len zones2 = inr 7.

(** ** What the claims say of a run that hands out a fixture *)

(** The run ends with the listing of the secondary identity and then of
    the primary one, no zone was listed before, and the listings held 2
    and 7 zones. *)
Definition counts_validated (self : SharedZoneTestContext) (t : trace) : Prop :=
  exists t0 code1 listing1 code2 listing2 zones1 zones2,
    t = t0 ++ [(ListZones (dummy_vinyldns_client self), Reply code1 listing1);
               (ListZones (ok_vinyldns_client self), Reply code2 listing2)] /\
    select is_zone_listing t0 = [] /\
    getitem listing1 "zones" = inr zones1 /\ len zones1 = inr 2 /\
    getitem listing2 "zones" = inr zones2 /\ len zones2 = inr 7.

(** The zone creations of the run are the eight rows of the catalog, in
    its order, owned by the groups of the fixture, each asked for with
    status 202 and each answered with status 202. *)
Definition catalog_created (cfg : TestContext) (self : SharedZoneTestContext)
    (t : trace) : Prop :=
  exists ok_id dummy_id changes,
    getitem (ok_group self) "id" = inr ok_id /\
    getitem (dummy_group self) "id" = inr dummy_id /\
    length changes = 8%nat /\
    select is_creation t =
      accepted (catalog cfg (ok_vinyldns_client self) (dummy_vinyldns_client self)
                        ok_id dummy_id) changes.

(** The run is the creations, then the nine waits, then the two listings
    that are counted: the waits are the ones of [awaited] on the eight
    changes the creations returned, every change is among them, and no
    zone is listed before the last wait. *)
Definition all_awaited (self : SharedZoneTestContext) (t : trace) : Prop :=
  exists t_before t_wait t_check changes,
    t = t_before ++ t_wait ++ t_check /\
    length changes = 8%nat /\
    map snd (select is_creation t_before) = map (Reply 202) changes /\
    select is_creation (t_wait ++ t_check) = [] /\
    issued t_wait = awaited self changes /\
    length t_wait = 9%nat /\
    (forall change, In change changes ->
       exists client, In (WaitUntilZoneExists client change) (issued t_wait)) /\
    select is_zone_listing (t_before ++ t_wait) = [] /\
    issued t_check = [ListZones (dummy_vinyldns_client self);
                      ListZones (ok_vinyldns_client self)].

(** The zone attributes are the ["zone"] items of the change records the
    eight creations returned, and after the last creation the run only
    waits and lists. *)
Definition zones_as_created (self : SharedZoneTestContext) (t : trace) : Prop :=
  exists t1 t2 changes,
    t = t1 ++ t2 /\
    length changes = 8%nat /\
    map snd (select is_creation t1) = map (Reply 202) changes /\
    map zone_of changes = exposed self /\
    Forall (fun ev => is_wait (fst ev) || is_zone_listing (fst ev) = true) t2.

(** ** Sample runs *)

Definition ready_run : outcome Service.world SharedZoneTestContext :=
  run Service.service (__init__ sample_context) Service.baseline.

Definition ready_fixture : SharedZoneTestContext :=
  Eval vm_compute in
    match result ready_run with
    | inr self => self
    | inl _ => new_context sample_context
    end.

(** A group nobody is a member of. *)
Definition stranger : value := VDict [("id", VStr "stranger")].

(** The first teardown goes through, the canonical group is not found,
    and the service is down when the fixture cleans up. *)
Definition outage : list reply := [
  Reply 200 VNone; Reply 200 VNone; Reply 200 VNone; Reply 200 VNone;
  Reply 200 Service.canonical_group;
  Reply 404 VNone;
  Fault (RemoteError "connection refused")
].

(** The membership shows on the second listing. *)
Definition late_member : list reply := [
  Reply 200 (VList []);
  Reply 200 (VList [stranger]);
  Reply 200 VNone
].

(** ** The order of the zone phase *)

(** The calls of the zone phase of [__init__]: creations, waits and zone
    listings. *)
Definition is_zone_call (c : call) : bool :=
  is_creation c || is_wait c || is_zone_listing c.

Definition quiet (c : call) : Prop := is_zone_call c = false.

Definition waits_on (client : VinylDNSClient) (c : call) : Prop :=
  exists change, c = WaitUntilZoneExists client change.

(** The zone calls of [__init__] in the order of its text: the eight
    creations, the nine waits with the client of each, the two
    listings. *)
Definition script (cfg : TestContext) (primary secondary : VinylDNSClient)
    (primary_group secondary_group : value) : list (call -> Prop) :=
  map eq (catalog cfg primary secondary primary_group secondary_group)
  ++ [waits_on primary; waits_on primary; waits_on secondary; waits_on primary;
      waits_on primary; waits_on primary; waits_on primary; waits_on primary;
      waits_on primary]
  ++ [eq (ListZones secondary); eq (ListZones primary)].

(** [cs] goes through an initial segment of the script [l], call by
    call. *)
Definition matches (l : list (call -> Prop)) (cs : list call) : Prop :=
  exists n, Forall2 (fun (P : call -> Prop) c => P c) (firstn n l) cs.

(** The zone calls a program can make are the next ones of the script
    [l], in its order. *)
Inductive follows {A : Type} : list (call -> Prop) -> prog A -> Prop :=
| follows_ret l (a : A) : follows l (Ret a)
| follows_raise l (e : exn) : follows l (Raise e)
| follows_skip l (c : call) (k : reply -> prog A) :
    quiet c -> (forall r, follows l (k r)) -> follows l (Call c k)
| follows_next (P : call -> Prop) l (c : call) (k : reply -> prog A) :
    P c -> is_zone_call c = true -> (forall r, follows l (k r)) ->
    follows (P :: l) (Call c k).

(** Whatever the remote does, the zone calls of a run of [p] go through
    an initial segment of the script, for some pair of group ids. *)
Definition in_script {A : Type} (cfg : TestContext) (primary secondary : VinylDNSClient)
    (p : prog A) : Prop :=
  forall (W : Type) (h : handler W) (w : W),
    exists primary_group secondary_group,
      matches (script cfg primary secondary primary_group secondary_group)
              (issued (select is_zone_call (calls (run h p w)))).

(** The calls of the membership wait, to the letter. *)
Definition polls_as (client : VinylDNSClient) (c : call) : Prop :=
  c = ListAllMyGroups client 200 \/ c = Sleep (5 # 100).

(** The group the fixture asks the service to create. *)
Definition dummy_group_request : value := VDict [
  ("name", VStr "dummy-group");
  ("email", VStr "test@test.com");
  ("description", VStr "this is a description");
  ("members", VList [VDict [("id", VStr "dummy")]]);
  ("admins", VList [VDict [("id", VStr "dummy")]])
].

(** A remote that answers every call with an empty list. *)
Definition unaware : handler unit := fun _ w => (Reply 200 (VList []), w).

(** A remote that is down from the first call on. *)
Definition down : list reply := [Fault (RemoteError "connection refused")].

(** A reply the constructor cannot read: a group without an ["id"], a
    change record without a ["zone"], a zone listing without ["zones"] or
    with ["zones"] that have no length. *)
Definition malformed (ev : event) : Prop :=
  match ev with
  | (GetGroup _ _ _, Reply _ body) | (CreateGroup _ _ _, Reply _ body) =>
      exists e, getitem body "id" = inl e
  | (CreateZone _ _ _, Reply _ body) =>
      exists e, getitem body "zone" = inl e
  | (ListZones _, Reply _ body) =>
      (exists e, getitem body "zones" = inl e) \/
      (exists zones e, getitem body "zones" = inr zones /\ len zones = inl e)
  | _ => False
  end.

Definition sleeps (t : trace) : nat := length (select is_sleep t).

(** How many calls of the kind [P] a trace holds. *)
Definition tally (P : call -> bool) (t : trace) : nat := length (select P t).

(** ** Running programs: the laws of [run] *)

Section Run.

Context {W : Type} (h : handler W).

Lemma run_bind {A B : Type} (p : prog A) (f : A -> prog B) (w : W) :
  run h (bind p f) w =
  match result (run h p w) with
  | inl e => Outcome (inl e) (final (run h p w)) (calls (run h p w))
  | inr a =>
      let o := run h (f a) (final (run h p w)) in
      Outcome (result o) (final o) (calls (run h p w) ++ calls o)
  end.
Proof.
  revert w; induction p as [a | e | c k IH]; intros w; simpl.
  - destruct (run h (f a) w); reflexivity.
  - reflexivity.
  - destruct (h c w) as [r w1]. rewrite IH. unfold after; simpl.
    destruct (result (run h (k r) w1)); reflexivity.
Qed.

Lemma run_try_except {A : Type} (p : prog A) (g : exn -> prog A) (w : W) :
  run h (try_except p g) w =
  match result (run h p w) with
  | inr a => Outcome (inr a) (final (run h p w)) (calls (run h p w))
  | inl e =>
      let o := run h (g e) (final (run h p w)) in
      Outcome (result o) (final o) (calls (run h p w) ++ calls o)
  end.
Proof.
  revert w; induction p as [a | e | c k IH]; intros w; simpl.
  - reflexivity.
  - destruct (run h (g e) w); reflexivity.
  - destruct (h c w) as [r w1]. rewrite IH. unfold after; simpl.
    destruct (result (run h (k r) w1)); reflexivity.
Qed.

(** Inversion of a run that ends well, one statement at a time. *)

Lemma step_sub {A B : Type} (p : prog A) (f : A -> prog B) w b w' t :
  run h (bind p f) w = Outcome (inr b) w' t ->
  exists a w1 t1 t2,
    run h p w = Outcome (inr a) w1 t1 /\
    run h (f a) w1 = Outcome (inr b) w' t2 /\
    t = t1 ++ t2.
Proof.
  rewrite run_bind. destruct (run h p w) as [[e | a] w1 t1]; simpl.
  - discriminate.
  - destruct (run h (f a) w1) as [r2 w2 t2] eqn:E2; simpl.
    intros H; injection H as -> -> <-.
    exists a, w1, t1, t2. auto.
Qed.

Lemma step_request {B : Type} (c : call) (f : value -> prog B) w b w' t :
  run h (bind (request c) f) w = Outcome (inr b) w' t ->
  exists code body w1 t1,
    h c w = (Reply code body, w1) /\
    (forall s, expected_status c = Some s -> code = s) /\
    run h (f body) w1 = Outcome (inr b) w' t1 /\
    t = (c, Reply code body) :: t1.
Proof.
  simpl. destruct (h c w) as [[code body | e] w1]; simpl.
  - destruct (expected_status c) as [s |]; simpl.
    + unfold assert_that_is. destruct (code =? s) eqn:E; simpl.
      * destruct (run h (f body) w1) as [r2 w2 t2] eqn:E2; unfold after; simpl.
        intros H; injection H as -> -> <-.
        exists code, body, w1, t2. repeat split; auto.
        intros s' Hs; injection Hs as <-. lia.
      * discriminate.
    + destruct (run h (f body) w1) as [r2 w2 t2] eqn:E2; unfold after; simpl.
      intros H; injection H as -> -> <-.
      exists code, body, w1, t2. repeat split; auto. discriminate.
  - discriminate.
Qed.

Lemma step_perform {B : Type} (c : call) (f : unit -> prog B) w b w' t :
  run h (bind (perform c) f) w = Outcome (inr b) w' t ->
  exists code body w1 t1,
    h c w = (Reply code body, w1) /\
    run h (f tt) w1 = Outcome (inr b) w' t1 /\
    t = (c, Reply code body) :: t1.
Proof.
  simpl. destruct (h c w) as [[code body | e] w1]; simpl.
  - destruct (run h (f tt) w1) as [r2 w2 t2] eqn:E2; unfold after; simpl.
    intros H; injection H as -> -> <-.
    exists code, body, w1, t2. auto.
  - discriminate.
Qed.

Lemma step_lift {A B : Type} (r : exn + A) (f : A -> prog B) w b w' t :
  run h (bind (lift r) f) w = Outcome (inr b) w' t ->
  exists a, r = inr a /\ run h (f a) w = Outcome (inr b) w' t.
Proof.
  destruct r as [e | a]; simpl.
  - discriminate.
  - intros H. exists a. auto.
Qed.

Lemma step_assert {B : Type} (actual expected : Z) (f : unit -> prog B) w b w' t :
  run h (bind (assert_that_is actual expected) f) w = Outcome (inr b) w' t ->
  actual = expected /\ run h (f tt) w = Outcome (inr b) w' t.
Proof.
  unfold assert_that_is. destruct (actual =? expected) eqn:E; simpl.
  - intros H. split; [lia | exact H].
  - discriminate.
Qed.

End Run.

Ltac step H :=
  first
  [ apply step_request in H;
    destruct H as (?code & ?body & ?w & ?t & ?Hcall & ?Hcode & H & ->)
  | apply step_perform in H;
    destruct H as (?code & ?body & ?w & ?t & ?Hcall & H & ->)
  | apply step_lift in H;
    destruct H as (?a & ?Hval & H)
  | apply step_assert in H;
    destruct H as (?Hassert & H)
  | apply step_sub in H;
    destruct H as (?a & ?w & ?t & ?t & ?Hsub & H & ->) ].


(** ** What a program can call *)

Lemma issues_bind {A B : Type} (P : call -> Prop) (p : prog A) (f : A -> prog B) :
  issues P p -> (forall a, issues P (f a)) -> issues P (bind p f).
Proof.
  intros Hp Hf. induction Hp as [a | e | c k Hc Hk IH]; simpl.
  - apply Hf.
  - constructor.
  - constructor; assumption.
Qed.

Lemma issues_run {W A : Type} (P : call -> Prop) (h : handler W) (p : prog A) :
  issues P p -> forall w, Forall (fun ev => P (fst ev)) (calls (run h p w)).
Proof.
  induction 1 as [a | e | c k Hc Hk IH]; intros w; simpl.
  - constructor.
  - constructor.
  - destruct (h c w) as [r w1]. simpl. constructor; [exact Hc | apply IH].
Qed.

Lemma issues_lift {A : Type} (P : call -> Prop) (r : exn + A) : issues P (lift r).
Proof. destruct r; constructor. Qed.

Lemma issues_assert (P : call -> Prop) (actual expected : bool) :
  issues P (assert_that_is_bool actual expected).
Proof. unfold assert_that_is_bool. destruct (Bool.eqb actual expected); constructor. Qed.

Lemma issues_request (P : call -> Prop) (c : call) : P c -> issues P (request c).
Proof.
  intros Hc. constructor; [exact Hc |].
  intros [code body | e]; [| constructor].
  destruct (expected_status c) as [s |]; [| constructor].
  unfold assert_that_is. destruct (code =? s); constructor.
Qed.

Lemma issues_perform (P : call -> Prop) (c : call) : P c -> issues P (perform c).
Proof. intros Hc. constructor; [exact Hc |]. intros [code body | e]; constructor. Qed.

Lemma issues_sleep (P : call -> Prop) (q : Q) : P (Sleep q) -> issues P (time_sleep q).
Proof. intros Hq. constructor; [exact Hq | constructor]. Qed.

Lemma confirm_loop_polls client group retries success :
  issues polls (confirm_loop client group retries success).
Proof.
  funelim (confirm_loop client group retries success).
  - apply issues_bind; [apply issues_request; left; reflexivity |].
    intros listing. apply issues_bind; [apply issues_lift |].
    intros success'. apply issues_bind; [apply issues_sleep; right; reflexivity |].
    intros _. match goal with IH : _ -> forall _, _ -> issues _ _ |- _ =>
      apply (IH listing success' tt) end.
  - constructor.
Qed.

Lemma confirm_member_in_group_polls client group :
  issues polls (confirm_member_in_group client group).
Proof.
  unfold confirm_member_in_group.
  apply issues_bind; [apply issues_request; left; reflexivity |].
  intros listing. apply issues_bind; [apply issues_lift |].
  intros success. apply issues_bind; [apply confirm_loop_polls |].
  intros success'. apply issues_assert.
Qed.

(** ** The runs of [tear_down] and of [__init__] *)

Section Runs.

Variable cfg : TestContext.
Context {W : Type} (h : handler W).

Lemma tear_down_issues self : issues (fun c => is_cleanup c = true) (tear_down self).
Proof.
  unfold tear_down.
  repeat (apply issues_bind; [| intros ?]);
    try (apply issues_perform; reflexivity);
    try (apply issues_request; reflexivity);
    try apply issues_lift.
  constructor.
Qed.

Lemma tear_down_calls self w w' t :
  run h (tear_down self) w = Outcome (inr tt) w' t ->
  issued t = cleanup self /\
  exists code body, last t (Sleep 0, Fault TypeError)
                    = (UpdateGroup (ok_vinyldns_client self) (VStr "ok")
                                   Service.canonical_group 200, Reply code body)
                    /\ code = 200.
Proof.
  intros H. unfold tear_down in H. cbv zeta in H.
  do 5 step H. simpl in H. injection H as <- <-.
  split; [reflexivity |].
  exists code3, body3. split; [reflexivity |]. apply Hcode. reflexivity.
Qed.

Lemma except_block_run self e w :
  run h (except_block self e) w =
  Outcome (inl e) (final (run h (tear_down self) w)) (calls (run h (tear_down self) w)).
Proof.
  unfold except_block. generalize (tear_down self) as p. intros p.
  rewrite run_bind, run_try_except.
  destruct (run h p w) as [[e' | []] w1 t1]; cbn [result final calls run];
    repeat rewrite app_nil_r; reflexivity.
Qed.

Lemma confirm_member_in_group_calls client group w a w' t :
  run h (confirm_member_in_group client group) w = Outcome (inr a) w' t ->
  Forall (fun ev => is_group_call (fst ev) = true) t.
Proof.
  intros H.
  pose proof (issues_run polls h _ (confirm_member_in_group_polls client group) w) as Hp.
  rewrite H in Hp. simpl in Hp.
  eapply Forall_impl; [| exact Hp].
  intros [c r] [Hc | Hc]; destruct c; simpl in *; congruence.
Qed.

Lemma try_block_ready self0 w self w' t :
  run h (try_block cfg self0) w = Outcome (inr self) w' t ->
  ready cfg self t /\
  ok_vinyldns_client self = ok_vinyldns_client self0 /\
  dummy_vinyldns_client self = dummy_vinyldns_client self0.
Proof.
  intros H. unfold try_block in H. cbv zeta in H.
  do 4 step H. do 24 step H. do 9 step H. do 8 step H.
  simpl in H. injection H as <- <- <-.
  repeat match goal with
  | Hc : forall s, expected_status _ = Some s -> ?c = s |- _ =>
      first [ pose proof (Hc _ eq_refl); subst c; clear Hc | clear Hc ]
  end.
  repeat match goal with
  | H1 : ?x = inr ?a, H2 : ?x = inr ?b |- _ =>
      assert (b = a) by congruence; subst b; clear H2
  end.
  subst.
  apply confirm_member_in_group_calls in Hsub, Hsub0.
  split; [| split; reflexivity].
  unfold ready; cbn [ok_vinyldns_client dummy_vinyldns_client ok_group dummy_group].
  match goal with
  | |- exists t_groups changes t_wait c1 l1 c2 l2 _ _ _ _,
        ?e1 :: ?ta ++ ?e2 :: ?tb ++
          (_, Reply _ ?b1) :: (_, Reply _ ?b2) :: (_, Reply _ ?b3) :: (_, Reply _ ?b4)
          :: (_, Reply _ ?b5) :: (_, Reply _ ?b6) :: (_, Reply _ ?b7) :: (_, Reply _ ?b8)
          :: ?v1 :: ?v2 :: ?v3 :: ?v4 :: ?v5 :: ?v6 :: ?v7 :: ?v8 :: ?v9
          :: [(_, Reply ?k1 ?x1); (_, Reply ?k2 ?x2)] = _ /\ _ =>
      exists (e1 :: ta ++ e2 :: tb), [b1; b2; b3; b4; b5; b6; b7; b8],
             [v1; v2; v3; v4; v5; v6; v7; v8; v9], k1, x1, k2, x2
  end.
  do 4 eexists.
  split.
  { cbn [app]. rewrite <- app_assoc. cbn [app]. reflexivity. }
  split.
  { constructor; [reflexivity |]. apply Forall_app. split; [assumption |].
    constructor; [reflexivity | assumption]. }
  repeat (split; [first [eassumption | reflexivity] |]).
  split.
  { unfold zone_of; simpl.
    repeat match goal with
    | Hv : getitem _ "zone" = _ |- _ => rewrite Hv; clear Hv
    end.
    reflexivity. }
  split; [reflexivity |].
  repeat split; eassumption.
Qed.

Lemma init_ready w self w' t :
  run h (__init__ cfg) w = Outcome (inr self) w' t ->
  exists t_clean t_setup,
    t = t_clean ++ t_setup /\
    issued t_clean = cleanup (new_context cfg) /\
    ready cfg self t_setup /\
    ok_vinyldns_client self = ok_vinyldns_client (new_context cfg) /\
    dummy_vinyldns_client self = dummy_vinyldns_client (new_context cfg).
Proof.
  intros H. unfold __init__ in H. cbv zeta in H.
  apply step_sub in H. destruct H as ([] & w1 & t1 & t2 & Hclean & H & ->).
  rewrite run_try_except in H.
  destruct (run h (try_block cfg (new_context cfg)) w1) as [[e | self'] w2 t3] eqn:Htry;
    cbn [result final calls] in H.
  - rewrite except_block_run in H. discriminate.
  - injection H as <- <- <-.
    apply tear_down_calls in Hclean. destruct Hclean as [Hclean _].
    apply try_block_ready in Htry. destruct Htry as (Hready & Hok & Hdummy).
    exists t1, t3. auto.
Qed.


End Runs.

(** ** The membership poller *)

Section Poller.

Context {W : Type} (h : handler W).
Variables (client : VinylDNSClient) (group : value).

Lemma confirm_loop_done retries success :
  success = true -> confirm_loop client group retries success = Ret true.
Proof.
  funelim (confirm_loop client group retries success); intros ->.
  - pose proof more as Hmore. rewrite andb_false_r in Hmore. discriminate.
  - reflexivity.
Qed.

Lemma confirm_loop_listings retries success w :
  (listings (calls (run h (confirm_loop client group retries success) w))
   <= Z.to_nat (retries + 1))%nat.
Proof.
  revert w. funelim (confirm_loop client group retries success); intros w.
  - pose proof (andb_prop _ _ more) as [Hpos _].
    simpl. destruct (h (ListAllMyGroups client 200) w) as [[code body | e] w1]; simpl.
    2:{ unfold listings; simpl. lia. }
    unfold assert_that_is. destruct (code =? 200); simpl.
    2:{ unfold listings; simpl. lia. }
    destruct (contains body group) as [e | success']; simpl.
    { unfold listings; simpl. lia. }
    destruct (h (Sleep (5 # 100)) w1) as [r w2]; simpl.
    match goal with IH : _ -> forall _, _ -> forall _, (_ <= _)%nat |- _ =>
      specialize (IH body success' tt w2) end.
    unfold listings in *; simpl. lia.
  - simpl. unfold listings; simpl. lia.
Qed.

Ltac poll_cases h w code body e w1 E C success' :=
  simpl;
  destruct (h (ListAllMyGroups client 200) w) as [[code body | e] w1]; simpl;
  [ unfold assert_that_is; destruct (code =? 200) eqn:E; simpl;
    [ destruct (contains body group) as [e | success'] eqn:C; simpl | ] | ].

Lemma confirm_loop_polled retries success w :
  polled group true (calls (run h (confirm_loop client group retries success) w)).
Proof.
  revert w. funelim (confirm_loop client group retries success); intros w.
  - poll_cases h w code body e w1 E C success'.
    + apply polled_raised; [reflexivity |]. simpl. rewrite E, C. reflexivity.
    + destruct (h (Sleep (5 # 100)) w1) as [r w2]; simpl.
      apply polled_retry with (seen := success').
      * simpl. rewrite E, C. reflexivity.
      * intros ->. rewrite confirm_loop_done by reflexivity. reflexivity.
      * match goal with IH : _ -> forall _, _ -> forall _, polled _ _ _ |- _ =>
          apply (IH body success' tt w2) end.
    + apply polled_raised; [reflexivity |]. simpl. rewrite E. reflexivity.
    + apply polled_raised; reflexivity.
  - simpl. constructor.
Qed.

Lemma confirm_loop_result retries success w :
  success = true \/
  Exists (fun ev => observed group ev = Some true)
         (calls (run h (confirm_loop client group retries success) w)) ->
  result (run h (confirm_loop client group retries success) w) = inr true.
Proof.
  revert w. funelim (confirm_loop client group retries success); intros w Hseen.
  - pose proof (andb_prop _ _ more) as [_ Hnot].
    destruct Hseen as [-> | Hseen]; [discriminate |].
    revert Hseen. poll_cases h w code body e w1 E C success';
      repeat rewrite Exists_cons; rewrite ?Exists_nil; simpl.
    + intros [Hev | []]. rewrite E, C in Hev. discriminate.
    + destruct (h (Sleep (5 # 100)) w1) as [r w2]; simpl.
      repeat rewrite Exists_cons. simpl. intros Hseen.
      match goal with IH : _ -> forall _, _ -> forall _, _ -> result _ = _ |- _ =>
        apply (IH body success' tt w2) end.
      destruct Hseen as [Hev | [Hev | Hev]].
      * left. rewrite E, C in Hev. congruence.
      * discriminate.
      * right. exact Hev.
    + intros [Hev | []]. rewrite E in Hev. discriminate.
    + intros [Hev | []]. discriminate.
  - destruct Hseen as [-> | Hseen]; [reflexivity |].
    simpl in Hseen. inversion Hseen.
Qed.

End Poller.

(** ** The membership-confirmation wait *)

Lemma confirm_member_in_group_listings {W : Type} (h : handler W) client group w :
  (listings (calls (run h (confirm_member_in_group client group) w)) <= 4)%nat.
Proof.
  unfold confirm_member_in_group. cbv zeta. simpl.
  destruct (h (ListAllMyGroups client 200) w) as [[code body | e] w1]; simpl;
    [| unfold listings; simpl; lia].
  unfold assert_that_is. destruct (code =? 200); simpl;
    [| unfold listings; simpl; lia].
  destruct (contains body group) as [e | success]; simpl;
    [unfold listings; simpl; lia |].
  rewrite run_bind.
  pose proof (confirm_loop_listings h client group 2 success w1) as Hloop.
  destruct (run h (confirm_loop client group 2 success) w1) as [[e | success'] w2 t];
    simpl in *.
  - unfold listings in *; simpl. lia.
  - unfold assert_that_is_bool. destruct (Bool.eqb success' true); simpl;
      rewrite app_nil_r; unfold listings in *; simpl; lia.
Qed.

(** C5: the membership-confirmation wait is claimed to make at most 3
    calls to list_all_my_groups.  Against a service that never lists the
    group the wait lists the groups 4 times (once before the loop and
    once for each of [retries] = 2, 1, 0), sleeps 3 times 50 ms and then
    fails its assertion. *)
Theorem confirm_member_in_group_lists_four_times :
  let o := run Service.service
             (confirm_member_in_group (ok_vinyldns_client (new_context sample_context))
                                      stranger)
             Service.baseline in
  result o = inl AssertionError /\
  listings (calls o) = 4%nat /\
  length (select is_sleep (calls o)) = 3%nat /\
  Service.slept (final o) = 3 # 20.
Proof. vm_compute. repeat split. Qed.

(** C9, as the claim has it, fails: when the group shows on the second
    listing, the wait still sleeps after it has seen the group. *)
Lemma late_member_sleeps_after_success :
  ~ returns_at_once stranger
      (calls (run scripted
                  (confirm_member_in_group
                     (ok_vinyldns_client (new_context sample_context)) stranger)
                  late_member)).
Proof.
  intros H.
  assert (Hnil : [(Sleep (5 # 100), Reply 200 VNone)] = []); [| discriminate].
  eapply (H [_] _ _).
  - vm_compute. reflexivity.
  - vm_compute. reflexivity.
Qed.

(** C9, amended: the wait makes no further listing once an evaluation has
    seen the group, and it then succeeds.  It returns without sleeping
    when the first evaluation sees the group; every evaluation made in the
    retry loop is followed by one sleep of 50 ms, also the one that sees
    the group, and no sleep comes between the first evaluation and the
    first retry. *)
Theorem confirm_member_in_group_polled {W : Type} (h : handler W) client group w :
  polled group false (calls (run h (confirm_member_in_group client group) w)) /\
  (Exists (fun ev => observed group ev = Some true)
          (calls (run h (confirm_member_in_group client group) w)) ->
   result (run h (confirm_member_in_group client group) w) = inr tt).
Proof.
  unfold confirm_member_in_group. cbv zeta. simpl.
  destruct (h (ListAllMyGroups client 200) w) as [[code body | e] w1]; simpl.
  2:{ split; [apply polled_raised; reflexivity |].
      rewrite Exists_cons, Exists_nil. intros [Hev | []]. discriminate. }
  unfold assert_that_is. destruct (code =? 200) eqn:E; simpl.
  2:{ split; [apply polled_raised; [reflexivity | simpl; rewrite E; reflexivity] |].
      rewrite Exists_cons, Exists_nil; simpl. rewrite E.
      intros [Hev | []]. discriminate. }
  destruct (contains body group) as [e | success] eqn:C; simpl.
  { split; [apply polled_raised; [reflexivity | simpl; rewrite E, C; reflexivity] |].
    rewrite Exists_cons, Exists_nil; simpl. rewrite E, C.
    intros [Hev | []]. discriminate. }
  rewrite run_bind.
  pose proof (confirm_loop_polled h client group 2 success w1) as Hloop.
  pose proof (confirm_loop_result h client group 2 success w1) as Hres.
  pose proof (confirm_loop_done client group 2 success) as Hdone.
  destruct (run h (confirm_loop client group 2 success) w1) as [[e | success'] w2 t] eqn:R;
    simpl in *.
  - split.
    + destruct success.
      * rewrite Hdone in R by reflexivity. discriminate.
      * apply polled_first_unseen; [simpl; rewrite E, C; reflexivity | exact Hloop].
    + rewrite Exists_cons; simpl. rewrite E, C.
      intros [Hev | Hev]; [| specialize (Hres (or_intror Hev)); discriminate].
      injection Hev as ->. specialize (Hres (or_introl eq_refl)). discriminate.
  - assert (Ht : calls (run h (assert_that_is_bool success' true) w2) = []).
    { unfold assert_that_is_bool. destruct (Bool.eqb success' true); reflexivity. }
    rewrite Ht, app_nil_r. split.
    + destruct success.
      * rewrite Hdone in R by reflexivity. injection R as <- <- <-.
        apply polled_first_seen. simpl. rewrite E, C. reflexivity.
      * apply polled_first_unseen; [simpl; rewrite E, C; reflexivity | exact Hloop].
    + rewrite Exists_cons; simpl. rewrite E, C. intros Hseen.
      assert (Hs : success' = true).
      { assert (Hin : inr success' = (inr true : exn + bool)); [| congruence].
        apply Hres. destruct Hseen as [Hev | Hev];
          [left; congruence | right; exact Hev]. }
      subst success'. reflexivity.
Qed.

(** ** Selecting calls from a trace *)

Lemma select_app p (t1 t2 : trace) : select p (t1 ++ t2) = select p t1 ++ select p t2.
Proof. unfold select. apply filter_app. Qed.

Lemma select_other p q (t : trace) :
  (forall c, q c = true -> p c = false) ->
  Forall (fun ev => q (fst ev) = true) t ->
  select p t = [].
Proof.
  intros Hpq Ht. induction Ht as [| ev t Hev _ IH]; simpl.
  - reflexivity.
  - rewrite (Hpq _ Hev). exact IH.
Qed.

Lemma select_issued p (t : trace) :
  forallb (fun c => negb (p c)) (issued t) = true -> select p t = [].
Proof.
  induction t as [| ev t IH]; simpl.
  - reflexivity.
  - intros H. apply andb_prop in H. destruct H as [Hev Ht].
    apply negb_true_iff in Hev. rewrite Hev. apply IH. exact Ht.
Qed.

Lemma issued_length (t : trace) : length (issued t) = length t.
Proof. apply length_map. Qed.

(** The runs that hand out a fixture, taken apart. *)
Ltac take_apart H :=
  match type of H with
  | result ?o = inr _ =>
      let E := fresh "E" in
      destruct o as [? ?w ?t] eqn:E; simpl in H; subst;
      apply init_ready in E;
      destruct E as (t_clean & t_setup & -> & Hclean & Hready & Hok & Hdummy);
      destruct Hready as (t_groups & changes & t_wait & code1 & listing1 & code2
                          & listing2 & zones1 & zones2 & ok_id & dummy_id & ->
                          & Hgroups & Hokid & Hdummyid & Hlen & Hzones & Hwait
                          & Hl1 & Hn1 & Hl2 & Hn2);
      destruct changes as [| c1 [| c2 [| c3 [| c4 [| c5 [| c6 [| c7 [| c8 [| ? ?]]]]]]]]];
      try discriminate Hlen;
      cbn [calls]
  end.

Section Claims.

Variable cfg : TestContext.
Context {W : Type} (h : handler W).

(** C1: every acquire that returns has listed the zones of the secondary
    identity and found 2, then those of the primary identity and found 7,
    as the last two things it did; a listing of any other size leaves the
    constructor with an exception instead of a fixture. *)
Theorem acquire_validates_zone_counts w self :
  result (run h (__init__ cfg) w) = inr self ->
  counts_validated self (calls (run h (__init__ cfg) w)).
Proof.
  intros H. take_apart H.
  exists (t_clean ++ t_groups
          ++ accepted (catalog cfg (ok_vinyldns_client self) (dummy_vinyldns_client self)
                               ok_id dummy_id) [c1; c2; c3; c4; c5; c6; c7; c8]
          ++ t_wait),
    code1, listing1, code2, listing2, zones1, zones2.
  split; [repeat rewrite <- app_assoc; reflexivity |].
  split; [| auto].
  repeat rewrite select_app.
  rewrite (select_issued _ t_clean) by (rewrite Hclean; reflexivity).
  rewrite (select_other is_zone_listing is_group_call t_groups)
    by (try assumption; intros []; simpl; congruence).
  rewrite (select_issued _ t_wait) by (rewrite Hwait; reflexivity).
  reflexivity.
Qed.

(** A listing of another size is fatal: where a zone listing of the run
    holds neither 2 nor 7 zones, the constructor raises. *)
Lemma zone_count_mismatch_is_fatal w c code listing :
  In (ListZones c, Reply code listing) (calls (run h (__init__ cfg) w)) ->
  (forall zones, getitem listing "zones" = inr zones ->
     len zones <> inr 2 /\ len zones <> inr 7) ->
  exists e, result (run h (__init__ cfg) w) = inl e.
Proof.
  intros Hin Hbad.
  destruct (result (run h (__init__ cfg) w)) as [e | self] eqn:H; [eauto |].
  exfalso. take_apart H. cbn [calls] in Hin.
  repeat (apply in_app_or in Hin; destruct Hin as [Hin | Hin]).
  - apply (in_map fst) in Hin. fold (issued t_clean) in Hin. rewrite Hclean in Hin.
    simpl in Hin. intuition discriminate.
  - rewrite Forall_forall in Hgroups. apply Hgroups in Hin. discriminate.
  - simpl in Hin. intuition discriminate.
  - apply (in_map fst) in Hin. fold (issued t_wait) in Hin. rewrite Hwait in Hin.
    simpl in Hin. intuition discriminate.
  - simpl in Hin. destruct Hin as [Hin | [Hin | []]]; injection Hin as _ _ <-.
    + destruct (Hbad zones1 Hl1) as [Hno _]. exact (Hno Hn1).
    + destruct (Hbad zones2 Hl2) as [_ Hno]. exact (Hno Hn2).
Qed.

(** A creation that is not accepted is fatal: where a zone creation of
    the run is answered by anything but status 202, the constructor
    raises. *)
Lemma refused_creation_is_fatal w c zone status r :
  In (CreateZone c zone status, r) (calls (run h (__init__ cfg) w)) ->
  (forall change, r <> Reply 202 change) ->
  exists e, result (run h (__init__ cfg) w) = inl e.
Proof.
  intros Hin Hbad.
  destruct (result (run h (__init__ cfg) w)) as [e | self] eqn:H; [eauto |].
  exfalso. take_apart H. cbn [calls] in Hin.
  repeat (apply in_app_or in Hin; destruct Hin as [Hin | Hin]).
  - apply (in_map fst) in Hin. fold (issued t_clean) in Hin. rewrite Hclean in Hin.
    simpl in Hin. intuition discriminate.
  - rewrite Forall_forall in Hgroups. apply Hgroups in Hin. discriminate.
  - simpl in Hin.
    repeat (destruct Hin as [Hin | Hin];
            [injection Hin as _ _ _ <-; eapply Hbad; reflexivity |]).
    contradiction.
  - apply (in_map fst) in Hin. fold (issued t_wait) in Hin. rewrite Hwait in Hin.
    simpl in Hin. intuition discriminate.
  - simpl in Hin. intuition discriminate.
Qed.

(** C6: an acquire that returns has issued exactly 8 zone creations, the
    rows of the fixture catalog in its order (name, shared flag, owning
    identity and group, the access rule of parent.com., the connection
    name), each with status 202 asked for and each answered 202: a
    creation answered otherwise never ends in a fixture. *)
Theorem acquire_creates_the_catalog w self :
  result (run h (__init__ cfg) w) = inr self ->
  catalog_created cfg self (calls (run h (__init__ cfg) w)).
Proof.
  intros H. take_apart H.
  exists ok_id, dummy_id, [c1; c2; c3; c4; c5; c6; c7; c8].
  repeat (split; [assumption || reflexivity |]).
  repeat rewrite select_app.
  rewrite (select_issued _ t_clean) by (rewrite Hclean; reflexivity).
  rewrite (select_other is_creation is_group_call t_groups)
    by (try assumption; intros []; simpl; congruence).
  rewrite (select_issued _ t_wait) by (rewrite Hwait; reflexivity).
  simpl. reflexivity.
Qed.

(** C7: before an acquire that returns counts the zones, each of the 8
    changes its creations returned has been passed to
    wait_until_zone_exists: there are nine waits, the first and the
    eighth on the system-test change, in an order that is not the order
    of creation, and no zone is listed before the last of them. *)
Theorem acquire_awaits_every_change w self :
  result (run h (__init__ cfg) w) = inr self ->
  all_awaited self (calls (run h (__init__ cfg) w)).
Proof.
  intros H. take_apart H.
  exists (t_clean ++ t_groups
          ++ accepted (catalog cfg (ok_vinyldns_client self) (dummy_vinyldns_client self)
                               ok_id dummy_id) [c1; c2; c3; c4; c5; c6; c7; c8]),
    t_wait,
    [(ListZones (dummy_vinyldns_client self), Reply code1 listing1);
     (ListZones (ok_vinyldns_client self), Reply code2 listing2)],
    [c1; c2; c3; c4; c5; c6; c7; c8].
  assert (Hnine : length t_wait = 9%nat).
  { rewrite <- issued_length, Hwait. reflexivity. }
  split; [repeat rewrite <- app_assoc; reflexivity |].
  split; [reflexivity |].
  split.
  { repeat rewrite select_app.
    rewrite (select_issued _ t_clean) by (rewrite Hclean; reflexivity).
    rewrite (select_other is_creation is_group_call t_groups)
      by (try assumption; intros []; simpl; congruence).
    reflexivity. }
  split.
  { rewrite select_app.
    rewrite (select_issued _ t_wait) by (rewrite Hwait; reflexivity).
    reflexivity. }
  split; [exact Hwait |].
  split; [exact Hnine |].
  split.
  { intros change Hin. rewrite Hwait. simpl in Hin.
    repeat (destruct Hin as [<- | Hin];
            [eexists; simpl; eauto 12 |]).
    contradiction. }
  split; [| reflexivity].
  repeat rewrite select_app.
  rewrite (select_issued _ t_clean) by (rewrite Hclean; reflexivity).
  rewrite (select_other is_zone_listing is_group_call t_groups)
    by (try assumption; intros []; simpl; congruence).
  rewrite (select_issued _ t_wait) by (rewrite Hwait; reflexivity).
  reflexivity.
Qed.

(** C10: the zone attributes of the fixture an acquire hands out are the
    ["zone"] items of the change records its eight creations returned,
    in the order of the catalog; after the last creation the run only
    waits and lists, and nothing it gets back then reaches the
    attributes. *)
Theorem acquire_exposes_the_created_zones w self :
  result (run h (__init__ cfg) w) = inr self ->
  zones_as_created self (calls (run h (__init__ cfg) w)).
Proof.
  intros H. take_apart H.
  exists (t_clean ++ t_groups
          ++ accepted (catalog cfg (ok_vinyldns_client self) (dummy_vinyldns_client self)
                               ok_id dummy_id) [c1; c2; c3; c4; c5; c6; c7; c8]),
    (t_wait ++ [(ListZones (dummy_vinyldns_client self), Reply code1 listing1);
                (ListZones (ok_vinyldns_client self), Reply code2 listing2)]),
    [c1; c2; c3; c4; c5; c6; c7; c8].
  split; [repeat rewrite <- app_assoc; reflexivity |].
  split; [reflexivity |].
  split.
  { repeat rewrite select_app.
    rewrite (select_issued _ t_clean) by (rewrite Hclean; reflexivity).
    rewrite (select_other is_creation is_group_call t_groups)
      by (try assumption; intros []; simpl; congruence).
    reflexivity. }
  split; [exact Hzones |].
  apply Forall_app. split; [| repeat constructor].
  assert (Hw : Forall (fun c => is_wait c || is_zone_listing c = true) (issued t_wait)).
  { rewrite Hwait. repeat constructor. }
  unfold issued in Hw. rewrite Forall_map in Hw. exact Hw.
Qed.

(** C2: when the setup steps of an acquire raise, whichever step it is,
    the teardown is run from the state the failure left, and the acquire
    raises the exception of the setup whatever that teardown does: an
    exception of the teardown is dropped. *)
Theorem acquire_cleans_up_and_reraises w w0 t0 e w1 t1 :
  run h (tear_down (new_context cfg)) w = Outcome (inr tt) w0 t0 ->
  run h (try_block cfg (new_context cfg)) w0 = Outcome (inl e) w1 t1 ->
  run h (__init__ cfg) w =
    Outcome (inl e)
            (final (run h (tear_down (new_context cfg)) w1))
            (t0 ++ t1 ++ calls (run h (tear_down (new_context cfg)) w1)) /\
  exists r, hd_error (calls (run h (tear_down (new_context cfg)) w1))
            = Some (ClearZones (dummy_vinyldns_client (new_context cfg)), r).
Proof.
  intros Hclean Htry. split.
  - unfold __init__. cbv zeta. rewrite run_bind, Hclean. cbn [result final calls].
    rewrite run_try_except, Htry. cbn [result final calls].
    rewrite except_block_run. reflexivity.
  - simpl. destruct (h _ w1) as [r w2]. exists r. reflexivity.
Qed.

End Claims.

(** The claims at the sample runs. *)

Lemma acquire_validates_zone_counts_at_baseline :
  result ready_run = inr ready_fixture /\
  counts_validated ready_fixture (calls ready_run).
Proof.
  split; [vm_compute; reflexivity |].
  apply (acquire_validates_zone_counts sample_context Service.service
                                       Service.baseline ready_fixture).
  vm_compute; reflexivity.
Defined.

Lemma acquire_creates_the_catalog_at_baseline :
  result ready_run = inr ready_fixture /\
  catalog_created sample_context ready_fixture (calls ready_run).
Proof.
  split; [vm_compute; reflexivity |].
  apply (acquire_creates_the_catalog sample_context Service.service
                                     Service.baseline ready_fixture).
  vm_compute; reflexivity.
Defined.

Lemma acquire_awaits_every_change_at_baseline :
  result ready_run = inr ready_fixture /\
  all_awaited ready_fixture (calls ready_run).
Proof.
  split; [vm_compute; reflexivity |].
  apply (acquire_awaits_every_change sample_context Service.service
                                     Service.baseline ready_fixture).
  vm_compute; reflexivity.
Defined.

Lemma acquire_exposes_the_created_zones_at_baseline :
  result ready_run = inr ready_fixture /\
  zones_as_created ready_fixture (calls ready_run).
Proof.
  split; [vm_compute; reflexivity |].
  apply (acquire_exposes_the_created_zones sample_context Service.service
                                           Service.baseline ready_fixture).
  vm_compute; reflexivity.
Defined.

Lemma acquire_cleans_up_and_reraises_in_an_outage :
  let clean := run scripted (tear_down (new_context sample_context)) outage in
  let setup := run scripted (try_block sample_context (new_context sample_context))
                   (final clean) in
  let recovery := run scripted (tear_down (new_context sample_context)) (final setup) in
  result clean = inr tt /\
  result setup = inl AssertionError /\
  result recovery = inl (RemoteError "connection refused") /\
  run scripted (__init__ sample_context) outage =
    Outcome (inl AssertionError) (final recovery)
            (calls clean ++ calls setup ++ calls recovery).
Proof.
  intros clean setup recovery.
  split; [vm_compute; reflexivity |].
  split; [vm_compute; reflexivity |].
  split; [vm_compute; reflexivity |].
  apply (acquire_cleans_up_and_reraises sample_context scripted outage
           (final clean) (calls clean) AssertionError (final setup) (calls setup)).
  - vm_compute; reflexivity.
  - vm_compute; reflexivity.
Defined.

Lemma run_calls_sound {W A : Type} (h : handler W) (p : prog A) w ev :
  In ev (calls (run h p w)) -> exists w1, fst (h (fst ev) w1) = snd ev.
Proof.
  revert w. induction p as [a | e | c k IH]; intros w; simpl.
  - contradiction.
  - contradiction.
  - remember (h c w) as rw eqn:E. destruct rw as [r w1]. simpl. intros [<- | Hin].
    + exists w. cbn [fst snd]. rewrite <- E. reflexivity.
    + apply (IH r w1). exact Hin.
Qed.

(** ** The teardown against the model of the service *)

Section Teardown.

Import Service.

Variable cfg : TestContext.

Lemma tear_down_on_service w :
  run service (tear_down (new_context cfg)) w =
  let updated := (UpdateGroup (ok_vinyldns_client (new_context cfg)) (VStr "ok")
                              canonical_group 200) in
  let cleared_trace := [
    (ClearZones (dummy_vinyldns_client (new_context cfg)), Reply 200 VNone);
    (ClearZones (ok_vinyldns_client (new_context cfg)), Reply 200 VNone);
    (ClearGroups (dummy_vinyldns_client (new_context cfg)) [], Reply 200 VNone);
    (ClearGroups (ok_vinyldns_client (new_context cfg)) [VStr "ok"], Reply 200 VNone)] in
  if existsb (has_id (VStr "ok")) (groups (cleared w))
  then Outcome (inr tt) (restored w)
               (cleared_trace ++ [(updated, Reply 200 canonical_group)])
  else Outcome (inl AssertionError) (cleared w)
               (cleared_trace ++ [(updated, Reply 404 VNone)]).
Proof.
  cbv zeta. unfold tear_down.
  cbn -[has_id excluded group_visible zone_visible filter existsb map canonical_group].
  unfold restored, cleared, set_groups, set_zones, reset.
  cbn [groups zones next_id slept].
  destruct (existsb _ _); reflexivity.
Qed.

Lemma value_eqb_str s v : value_eqb (VStr s) v = true -> v = VStr s.
Proof.
  destruct v; simpl; try discriminate.
  intros H. apply String.eqb_eq in H. congruence.
Qed.

Lemma value_eqb_str_r s v : value_eqb v (VStr s) = true -> v = VStr s.
Proof.
  destruct v; simpl; try discriminate.
  intros H. apply String.eqb_eq in H. congruence.
Qed.

Lemma cleared_zone w z :
  In z (zones (cleared w)) ->
  zone_visible "ok" z = false /\ zone_visible "dummy" z = false.
Proof.
  unfold cleared; cbn [zones]. intros H.
  apply filter_In in H. destruct H as [H Hok].
  apply filter_In in H. destruct H as [_ Hdummy].
  split; apply negb_true_iff; assumption.
Qed.

Lemma cleared_group w g :
  In g (groups (cleared w)) ->
  group_visible "dummy" g = false /\
  (group_visible "ok" g = false \/ has_id (VStr "ok") g = true).
Proof.
  unfold cleared; cbn [groups]. intros H.
  apply filter_In in H. destruct H as [H Hok].
  apply filter_In in H. destruct H as [_ Hdummy].
  split.
  - unfold excluded in Hdummy; simpl in Hdummy. rewrite orb_false_r in Hdummy.
    apply negb_true_iff. exact Hdummy.
  - apply orb_prop in Hok. destruct Hok as [Hok | Hok].
    + left. apply negb_true_iff. exact Hok.
    + right. unfold excluded in Hok. cbn [existsb] in Hok. rewrite orb_false_r in Hok.
      apply value_eqb_str in Hok. unfold has_id. rewrite Hok. reflexivity.
Qed.

Lemma reset_group w g :
  In g (groups (restored w)) ->
  exists g0, In g0 (groups (cleared w)) /\ g = reset g0.
Proof.
  unfold restored, set_groups; cbn [groups]. intros H.
  apply in_map_iff in H. destruct H as (g0 & <- & Hin). eauto.
Qed.

Lemma has_id_reset g : has_id (VStr "ok") g = true -> reset g = (fst g, canonical_group).
Proof. unfold reset. intros ->. reflexivity. Qed.

Lemma reset_keeps g : has_id (VStr "ok") g = false -> reset g = g.
Proof. unfold reset. intros ->. reflexivity. Qed.

Lemma reset_reset g : reset (reset g) = reset g.
Proof.
  destruct (has_id (VStr "ok") g) eqn:E.
  - rewrite (has_id_reset g E). reflexivity.
  - rewrite (reset_keeps g E). apply reset_keeps. exact E.
Qed.

Lemma filter_all {A : Type} (p : A -> bool) (l : list A) :
  (forall x, In x l -> p x = true) -> filter p l = l.
Proof.
  induction l as [| x l IH]; simpl; intros H.
  - reflexivity.
  - rewrite (H x) by auto. f_equal. apply IH. auto.
Qed.

Lemma visible_owner user g :
  group_visible user g = false -> String.eqb (fst g) user = false.
Proof. unfold group_visible. intros H. apply orb_false_elim in H. tauto. Qed.

Lemma restored_at_baseline w :
  existsb (has_id (VStr "ok")) (groups (cleared w)) = true ->
  at_baseline (restored w).
Proof.
  intros Hex. repeat split.
  - apply cleared_zone in H. destruct H as [H _].
    unfold zone_visible in H. apply orb_false_elim in H. destruct H as [H _].
    apply String.eqb_neq. exact H.
  - apply cleared_zone in H. destruct H as [_ H].
    unfold zone_visible in H. apply orb_false_elim in H. destruct H as [H _].
    apply String.eqb_neq. exact H.
  - apply cleared_zone in H. tauto.
  - apply cleared_zone in H. tauto.
  - intros g Hin Hown. apply reset_group in Hin. destruct Hin as (g0 & Hin & ->).
    apply cleared_group in Hin. destruct Hin as [Hdummy Hok].
    destruct (has_id (VStr "ok") g0) eqn:E.
    + rewrite (has_id_reset g0 E). reflexivity.
    + rewrite (reset_keeps g0 E) in *.
      destruct Hok as [Hok | Hok]; [| congruence].
      apply visible_owner in Hdummy, Hok.
      apply String.eqb_neq in Hdummy, Hok. tauto.
  - apply reset_group in H. destruct H as (g0 & Hin & ->).
    destruct (has_id (VStr "ok") g0) eqn:E.
    + rewrite (has_id_reset g0 E). reflexivity.
    + rewrite (reset_keeps g0 E) in *. congruence.
  - apply reset_group in H. destruct H as (g0 & Hin & ->).
    destruct (has_id (VStr "ok") g0) eqn:E.
    + rewrite (has_id_reset g0 E). reflexivity.
    + rewrite (reset_keeps g0 E) in *. congruence.
  - apply existsb_exists in Hex. destruct Hex as (g0 & Hin & Hid).
    exists (reset g0). split.
    + unfold restored, set_groups; cbn [groups]. apply in_map. exact Hin.
    + rewrite (has_id_reset g0 Hid). reflexivity.
Qed.

Lemma cleared_restored w : cleared (restored w) = restored w.
Proof.
  assert (Hz : filter (fun z => negb (zone_visible "ok" z))
                 (filter (fun z => negb (zone_visible "dummy" z)) (zones (restored w)))
               = zones (restored w)).
  { rewrite (filter_all _ (zones (restored w))).
    - apply filter_all. intros z Hz. apply cleared_zone in Hz.
      apply negb_true_iff. tauto.
    - intros z Hz. apply cleared_zone in Hz. apply negb_true_iff. tauto. }
  assert (Hd : forall g, In g (groups (restored w)) ->
                 negb (group_visible "dummy" g) || excluded [] g = true).
  { intros g Hin. apply reset_group in Hin. destruct Hin as (g0 & Hin & ->).
    apply cleared_group in Hin. destruct Hin as [Hdummy _].
    apply orb_true_intro. left. apply negb_true_iff.
    destruct (has_id (VStr "ok") g0) eqn:E.
    - rewrite (has_id_reset g0 E). apply visible_owner in Hdummy.
      unfold group_visible. cbn [fst snd]. rewrite Hdummy. reflexivity.
    - rewrite (reset_keeps g0 E). exact Hdummy. }
  assert (Ho : forall g, In g (groups (restored w)) ->
                 negb (group_visible "ok" g) || excluded [VStr "ok"] g = true).
  { intros g Hin. apply reset_group in Hin. destruct Hin as (g0 & Hin & ->).
    apply cleared_group in Hin. destruct Hin as [_ Hok].
    destruct (has_id (VStr "ok") g0) eqn:E.
    - rewrite (has_id_reset g0 E). apply orb_true_intro. right. reflexivity.
    - rewrite (reset_keeps g0 E). destruct Hok as [Hok | Hok]; [| congruence].
      rewrite Hok. reflexivity. }
  assert (Hg : filter (fun g => negb (group_visible "ok" g) || excluded [VStr "ok"] g)
                 (filter (fun g => negb (group_visible "dummy" g) || excluded [] g)
                         (groups (restored w)))
               = groups (restored w)).
  { rewrite (filter_all _ (groups (restored w)) Hd). apply filter_all. exact Ho. }
  unfold cleared at 1. rewrite Hg, Hz. reflexivity.
Qed.

Lemma restored_restored w :
  existsb (has_id (VStr "ok")) (groups (cleared w)) = true ->
  existsb (has_id (VStr "ok")) (groups (cleared (restored w))) = true /\
  restored (restored w) = restored w.
Proof.
  intros Hex. split.
  - rewrite cleared_restored. apply existsb_exists.
    apply existsb_exists in Hex. destruct Hex as (g0 & Hin & Hid).
    exists (reset g0). split.
    + unfold restored, set_groups; cbn [groups]. apply in_map. exact Hin.
    + rewrite (has_id_reset g0 Hid). reflexivity.
  - unfold restored at 1. rewrite cleared_restored.
    unfold restored, set_groups; cbn [groups zones next_id slept].
    rewrite map_map. f_equal. apply map_ext. intros g. apply reset_reset.
Qed.

(** C3: when tear_down returns, no zone owned by (or visible to) either
    identity is left, no group owned by either identity is left but the
    one with id 'ok', and that group is there with the primary identity
    as its only member and its only admin; the teardown names it only to
    keep it out of the clearing and to update it. *)
Theorem tear_down_restores_the_baseline w w' t :
  run service (tear_down (new_context cfg)) w = Outcome (inr tt) w' t ->
  at_baseline w' /\ issued t = cleanup (new_context cfg).
Proof.
  rewrite tear_down_on_service. cbv zeta.
  destruct (existsb (has_id (VStr "ok")) (groups (cleared w))) eqn:Hex;
    [| discriminate].
  intros H. injection H as <- <-.
  split; [apply restored_at_baseline; exact Hex | reflexivity].
Qed.

(** C4: a second tear_down right after one that returned also returns and
    leaves the service as the first one left it: no zone for either
    identity, no group but the canonical one, and that one at its
    baseline membership. *)
Theorem tear_down_twice_is_tear_down_once w w' t :
  run service (tear_down (new_context cfg)) w = Outcome (inr tt) w' t ->
  run service (tear_down (new_context cfg)) w' = Outcome (inr tt) w' t /\
  at_baseline w'.
Proof.
  rewrite !tear_down_on_service. cbv zeta.
  destruct (existsb (has_id (VStr "ok")) (groups (cleared w))) eqn:Hex;
    [| discriminate].
  intros H. injection H as <- <-.
  destruct (restored_restored w Hex) as [Hex' Hfix].
  rewrite Hex', Hfix.
  split; [reflexivity | apply restored_at_baseline; exact Hex].
Qed.
Lemma service_creates c d status w code change :
  fst (service (CreateZone c (VDict d) status) w) = Reply code change ->
  code = 202 ->
  exists id rest, change = VDict (("zone", VDict (("id", id) :: d)) :: rest).
Proof.
  unfold service. cbn [client_of]. destruct (user_of c) as [user |]; cbn [serve].
  - destruct (find _ _) as [g |]; [destruct (is_member user (snd g)) |];
      cbn [fst]; intros H Hcode; injection H as <- <-; try discriminate.
    eauto.
  - cbn [fst]. intros H Hcode; injection H as <- <-. discriminate.
Qed.

(** C8: against the service as the spec describes it, the parent.com.
    zone an acquire hands out carries exactly one access rule, and the
    rule gives the identity 'dummy' the level 'Delete', with the
    description 'some_test_rule'. *)
Theorem parent_zone_carries_the_delete_rule w self :
  result (run service (__init__ cfg) w) = inr self ->
  exists zone,
    parent_zone self = Some zone /\
    getitem zone "name" = inr (VStr "parent.com.") /\
    getitem zone "acl" = inr (VDict [("rules", VList [delete_rule])]) /\
    delete_rule = VDict [("accessLevel", VStr "Delete");
                         ("description", VStr "some_test_rule");
                         ("userId", VStr "dummy")].
Proof.
  intros H.
  pose proof (run_calls_sound service (__init__ cfg) w) as Hsound.
  take_apart H.
  cbn [calls] in Hsound.
  destruct (Hsound (CreateZone (ok_vinyldns_client self)
                               (catalog_zone cfg "parent.com." false ok_id
                                  [("acl", VDict [("rules", VList [delete_rule])])]
                                  "parent.")
                               202, Reply 202 c8)) as [w1 Hcall].
  { apply in_or_app; right. apply in_or_app; right. apply in_or_app; left.
    simpl. do 7 right. left. reflexivity. }
  cbn [fst snd] in Hcall.
  apply service_creates in Hcall; [| reflexivity].
  destruct Hcall as (id & rest & ->).
  injection Hzones as _ _ _ _ _ _ _ Hparent.
  exists (VDict (("id", id)
                 :: [("name", VStr "parent.com."); ("email", VStr "test@test.com");
                     ("shared", VBool false); ("adminGroupId", ok_id);
                     ("acl", VDict [("rules", VList [delete_rule])]);
                     ("connection", connection cfg "parent.");
                     ("transferConnection", connection cfg "parent.")])).
  split; [symmetry; exact Hparent |].
  repeat split.
Qed.

End Teardown.

(** The claims on the service at the sample runs: the teardown after the
    fixture was used, and the fixture itself. *)

Lemma tear_down_restores_the_baseline_after_use :
  let o := run Service.service (tear_down (new_context sample_context)) (final ready_run) in
  result o = inr tt /\
  length (Service.zones (final ready_run)) = 8%nat /\
  Service.at_baseline (final o) /\
  issued (calls o) = cleanup (new_context sample_context).
Proof.
  intros o.
  split; [vm_compute; reflexivity |].
  split; [vm_compute; reflexivity |].
  apply (tear_down_restores_the_baseline sample_context (final ready_run)
                                         (final o) (calls o)).
  vm_compute; reflexivity.
Defined.

Lemma tear_down_twice_after_use :
  let o := run Service.service (tear_down (new_context sample_context)) (final ready_run) in
  result o = inr tt /\
  run Service.service (tear_down (new_context sample_context)) (final o)
    = Outcome (inr tt) (final o) (calls o) /\
  Service.at_baseline (final o).
Proof.
  intros o.
  split; [vm_compute; reflexivity |].
  apply (tear_down_twice_is_tear_down_once sample_context (final ready_run)
                                           (final o) (calls o)).
  vm_compute; reflexivity.
Defined.

Lemma parent_zone_of_the_ready_fixture :
  result ready_run = inr ready_fixture /\
  exists zone,
    parent_zone ready_fixture = Some zone /\
    getitem zone "name" = inr (VStr "parent.com.") /\
    getitem zone "acl" = inr (VDict [("rules", VList [delete_rule])]) /\
    delete_rule = VDict [("accessLevel", VStr "Delete");
                         ("description", VStr "some_test_rule");
                         ("userId", VStr "dummy")].
Proof.
  split; [vm_compute; reflexivity |].
  apply (parent_zone_carries_the_delete_rule sample_context Service.baseline
                                             ready_fixture).
  vm_compute; reflexivity.
Defined.

(** ** More on the teardown, for any remote *)

Section MoreTeardown.

Variable cfg : TestContext.
Context {W : Type} (h : handler W).

(** The first tear_down of the constructor is outside its [try]: when it
    raises, the constructor raises the same exception at once, with the
    calls of that teardown and no other, and no second teardown is
    tried. *)
Theorem acquire_stops_at_a_failed_first_teardown w e w' t :
  run h (tear_down (new_context cfg)) w = Outcome (inl e) w' t ->
  run h (__init__ cfg) w = Outcome (inl e) w' t.
Proof.
  intros H. unfold __init__. cbv zeta. rewrite run_bind, H. reflexivity.
Qed.

(** tear_down has no error handling of its own: its calls are an initial
    segment of its five calls, all five when it returns; when it raises,
    the last call it made is the one that failed, either by raising that
    exception or, for the update of the canonical group, by a status
    other than 200, which is an AssertionError. *)
Theorem tear_down_stops_at_the_first_failure self w :
  (exists n, issued (calls (run h (tear_down self) w)) = firstn n (cleanup self)) /\
  (result (run h (tear_down self) w) = inr tt ->
   issued (calls (run h (tear_down self) w)) = cleanup self) /\
  (forall e, result (run h (tear_down self) w) = inl e ->
     exists c r,
       hd_error (rev (calls (run h (tear_down self) w))) = Some (c, r) /\
       (r = Fault e \/
        e = AssertionError /\
        c = UpdateGroup (ok_vinyldns_client self) (VStr "ok") Service.canonical_group 200 /\
        exists code body, r = Reply code body /\ code <> 200)).
Proof.
  unfold tear_down. cbv zeta. simpl.
  destruct (h (ClearZones (dummy_vinyldns_client self)) w) as [[k1 b1 | e1] w1]; simpl.
  2:{ split; [exists 1%nat; reflexivity |]. split; [discriminate |].
      intros e H; injection H as <-. eauto 6. }
  destruct (h (ClearZones (ok_vinyldns_client self)) w1) as [[k2 b2 | e2] w2]; simpl.
  2:{ split; [exists 2%nat; reflexivity |]. split; [discriminate |].
      intros e H; injection H as <-. eauto 6. }
  destruct (h (ClearGroups (dummy_vinyldns_client self) []) w2) as [[k3 b3 | e3] w3]; simpl.
  2:{ split; [exists 3%nat; reflexivity |]. split; [discriminate |].
      intros e H; injection H as <-. eauto 6. }
  destruct (h (ClearGroups (ok_vinyldns_client self) [VStr "ok"]) w3)
    as [[k4 b4 | e4] w4]; simpl.
  2:{ split; [exists 4%nat; reflexivity |]. split; [discriminate |].
      intros e H; injection H as <-. eauto 6. }
  destruct (h _ w4) as [[k5 b5 | e5] w5]; simpl.
  2:{ split; [exists 5%nat; reflexivity |]. split; [discriminate |].
      intros e H; injection H as <-. eauto 6. }
  unfold assert_that_is. destruct (k5 =? 200) eqn:E; simpl.
  - split; [exists 5%nat; reflexivity |]. split; [reflexivity | discriminate].
  - split; [exists 5%nat; reflexivity |]. split; [discriminate |].
    intros e H; injection H as <-.
    exists (UpdateGroup (ok_vinyldns_client self) (VStr "ok") Service.canonical_group 200),
      (Reply k5 b5).
    split; [reflexivity |]. right. split; [reflexivity |]. split; [reflexivity |].
    exists k5, b5. split; [reflexivity | lia].
Qed.

(** An acquire that returns has torn down once, before the setup, and not
    after it: its first five calls are those of tear_down and none of the
    calls that follow clears or updates anything. *)
Theorem acquire_keeps_what_it_built w self :
  result (run h (__init__ cfg) w) = inr self ->
  exists t_clean t_setup,
    calls (run h (__init__ cfg) w) = t_clean ++ t_setup /\
    issued t_clean = cleanup (new_context cfg) /\
    select is_cleanup t_setup = [].
Proof.
  intros H. take_apart H.
  eexists t_clean, _. split; [reflexivity |]. split; [exact Hclean |].
  repeat rewrite select_app.
  rewrite (select_other is_cleanup is_group_call t_groups)
    by (try assumption; intros []; simpl; congruence).
  rewrite (select_issued _ t_wait) by (rewrite Hwait; reflexivity).
  reflexivity.
Qed.

End MoreTeardown.

Lemma acquire_stops_when_the_service_is_down :
  run scripted (tear_down (new_context sample_context)) down
    = Outcome (inl (RemoteError "connection refused")) []
              [(ClearZones (dummy_vinyldns_client (new_context sample_context)),
                Fault (RemoteError "connection refused"))] /\
  run scripted (__init__ sample_context) down
    = Outcome (inl (RemoteError "connection refused")) []
              [(ClearZones (dummy_vinyldns_client (new_context sample_context)),
                Fault (RemoteError "connection refused"))].
Proof.
  split; [vm_compute; reflexivity |].
  apply (acquire_stops_at_a_failed_first_teardown sample_context scripted down).
  vm_compute; reflexivity.
Defined.

Lemma acquire_keeps_what_it_built_at_baseline :
  result ready_run = inr ready_fixture /\
  exists t_clean t_setup,
    calls ready_run = t_clean ++ t_setup /\
    issued t_clean = cleanup (new_context sample_context) /\
    select is_cleanup t_setup = [].
Proof.
  split; [vm_compute; reflexivity |].
  apply (acquire_keeps_what_it_built sample_context Service.service
                                     Service.baseline ready_fixture).
  vm_compute; reflexivity.
Defined.

(** ** More on the membership wait, for any remote *)

Section MorePoller.

Context {W : Type} (h : handler W).
Variables (client : VinylDNSClient) (group : value).

Lemma confirm_loop_polls_as retries success :
  issues (polls_as client) (confirm_loop client group retries success).
Proof.
  funelim (confirm_loop client group retries success).
  - apply issues_bind; [apply issues_request; left; reflexivity |].
    intros listing. apply issues_bind; [apply issues_lift |].
    intros success'. apply issues_bind; [apply issues_sleep; right; reflexivity |].
    intros _. match goal with IH : _ -> forall _, _ -> issues _ _ |- _ =>
      apply (IH listing success' tt) end.
  - constructor.
Qed.

(** The wait calls nothing but list_all_my_groups(status=200) of the
    client it was given and time.sleep(.05). *)
Theorem confirm_member_in_group_calls_only_the_listing w :
  Forall (fun ev => fst ev = ListAllMyGroups client 200 \/ fst ev = Sleep (5 # 100))
         (calls (run h (confirm_member_in_group client group) w)).
Proof.
  apply (issues_run (polls_as client)).
  unfold confirm_member_in_group.
  apply issues_bind; [apply issues_request; left; reflexivity |].
  intros listing. apply issues_bind; [apply issues_lift |].
  intros success. apply issues_bind; [apply confirm_loop_polls_as |].
  intros success'. apply issues_assert.
Qed.

Ltac listing_cases h w code body e w1 E C success' :=
  simpl;
  destruct (h (ListAllMyGroups client 200) w) as [[code body | e] w1]; simpl;
  [ unfold assert_that_is; destruct (code =? 200) eqn:E; simpl;
    [ destruct (contains body group) as [e | success'] eqn:C; simpl | ] | ].

Lemma confirm_loop_sleeps retries success w :
  (length (select is_sleep (calls (run h (confirm_loop client group retries success) w)))
   <= listings (calls (run h (confirm_loop client group retries success) w)))%nat.
Proof.
  revert w. funelim (confirm_loop client group retries success); intros w.
  - listing_cases h w code body e w1 E C success'; unfold listings; simpl; try lia.
    destruct (h (Sleep (5 # 100)) w1) as [r w2]; simpl.
    match goal with IH : _ -> forall _, _ -> forall _, (_ <= _)%nat |- _ =>
      specialize (IH body success' tt w2) end.
    unfold listings in *. lia.
  - simpl. unfold listings. simpl. lia.
Qed.

Lemma confirm_member_in_group_bounds w :
  (1 <= listings (calls (run h (confirm_member_in_group client group) w)) <= 4)%nat /\
  (length (select is_sleep (calls (run h (confirm_member_in_group client group) w)))
   < listings (calls (run h (confirm_member_in_group client group) w)))%nat.
Proof.
  unfold confirm_member_in_group. cbv zeta. simpl.
  destruct (h (ListAllMyGroups client 200) w) as [[code body | e] w1]; simpl;
    [| unfold listings; simpl; lia].
  unfold assert_that_is. destruct (code =? 200); simpl;
    [| unfold listings; simpl; lia].
  destruct (contains body group) as [e | success]; simpl;
    [unfold listings; simpl; lia |].
  rewrite run_bind.
  pose proof (confirm_loop_listings h client group 2 success w1) as Hloop.
  pose proof (confirm_loop_sleeps 2 success w1) as Hsleep.
  destruct (run h (confirm_loop client group 2 success) w1) as [[e | success'] w2 t];
    simpl in *.
  - unfold listings in *; simpl. lia.
  - unfold assert_that_is_bool. destruct (Bool.eqb success' true); simpl;
      rewrite app_nil_r; unfold listings in *; simpl; lia.
Qed.

(** The wait lists the groups at least once and at most 4 times and
    sleeps at most 3 times, always less often than it lists: whatever the
    remote does, it is over after 150 ms of sleeping. *)
Theorem confirm_member_in_group_is_bounded w :
  (1 <= listings (calls (run h (confirm_member_in_group client group) w)) <= 4)%nat /\
  (length (select is_sleep (calls (run h (confirm_member_in_group client group) w)))
   < listings (calls (run h (confirm_member_in_group client group) w)))%nat.
Proof. apply confirm_member_in_group_bounds. Qed.

Lemma confirm_loop_seen retries success w :
  result (run h (confirm_loop client group retries success) w) = inr true ->
  success = true \/
  Exists (fun ev => observed group ev = Some true)
         (calls (run h (confirm_loop client group retries success) w)).
Proof.
  revert w. funelim (confirm_loop client group retries success); intros w.
  - listing_cases h w code body e w1 E C success'; try discriminate.
    destruct (h (Sleep (5 # 100)) w1) as [r w2]; simpl.
    intros Hres. right.
    match goal with IH : _ -> forall _, _ -> forall _, _ -> _ \/ _ |- _ =>
      destruct (IH body success' tt w2 Hres) as [-> | Hseen] end.
    + apply Exists_cons_hd. cbn [observed]. rewrite E, C. reflexivity.
    + apply Exists_cons_tl. apply Exists_cons_tl. exact Hseen.
  - simpl. intros Hres. left. congruence.
Qed.

Lemma confirm_member_in_group_seen w :
  result (run h (confirm_member_in_group client group) w) = inr tt ->
  Exists (fun ev => observed group ev = Some true)
         (calls (run h (confirm_member_in_group client group) w)).
Proof.
  unfold confirm_member_in_group. cbv zeta. simpl.
  destruct (h (ListAllMyGroups client 200) w) as [[code body | e] w1]; simpl;
    [| discriminate].
  unfold assert_that_is. destruct (code =? 200) eqn:E; simpl; [| discriminate].
  destruct (contains body group) as [e | success] eqn:C; simpl; [discriminate |].
  rewrite run_bind.
  pose proof (confirm_loop_seen 2 success w1) as Hseen.
  destruct (run h (confirm_loop client group 2 success) w1) as [[e | success'] w2 t];
    simpl in *; [discriminate |].
  unfold assert_that_is_bool. destruct success'; simpl; [| discriminate].
  intros _. destruct (Hseen eq_refl) as [-> | Hloop].
  - apply Exists_cons_hd. cbn [observed]. rewrite E, C. reflexivity.
  - apply Exists_cons_tl. apply Exists_app. left. exact Hloop.
Qed.

(** The wait never returns on its own authority: when it returns, one of
    its listings passed the status check and held the group. *)
Theorem confirm_member_in_group_returns_only_when_seen w :
  result (run h (confirm_member_in_group client group) w) = inr tt ->
  Exists (fun ev => observed group ev = Some true)
         (calls (run h (confirm_member_in_group client group) w)).
Proof. apply confirm_member_in_group_seen. Qed.

Section Never.

Hypothesis never_listed : forall w,
  exists body w', h (ListAllMyGroups client 200) w = (Reply 200 body, w') /\
                  contains body group = inr false.

Lemma confirm_loop_exhausted retries success w :
  success = false ->
  result (run h (confirm_loop client group retries success) w) = inr false /\
  listings (calls (run h (confirm_loop client group retries success) w))
    = Z.to_nat (retries + 1) /\
  length (select is_sleep (calls (run h (confirm_loop client group retries success) w)))
    = Z.to_nat (retries + 1).
Proof.
  revert w. funelim (confirm_loop client group retries success); intros w ->.
  - pose proof (andb_prop _ _ more) as [Hpos _].
    destruct (never_listed w) as (body & w1 & Hh & Hc).
    simpl. rewrite Hh. simpl. rewrite Hc. simpl.
    destruct (h (Sleep (5 # 100)) w1) as [r w2]; simpl.
    match goal with IH : _ -> forall _, _ -> forall _, _ -> _ /\ _ |- _ =>
      destruct (IH body false tt w2 eq_refl) as (Hres & Hl & Hs) end.
    unfold listings in *. simpl. rewrite Hres, Hl, Hs.
    repeat split; lia.
  - match goal with Hc : (retries >=? 0) && negb false = false |- _ =>
      pose proof Hc as Hneg end.
    rewrite andb_true_r in Hneg.
    unfold listings. simpl. repeat split; lia.
Qed.

(** When no listing ever holds the group, the wait gives up after exactly
    4 listings and 3 sleeps, with an AssertionError. *)
Theorem confirm_member_in_group_gives_up w :
  result (run h (confirm_member_in_group client group) w) = inl AssertionError /\
  listings (calls (run h (confirm_member_in_group client group) w)) = 4%nat /\
  length (select is_sleep (calls (run h (confirm_member_in_group client group) w)))
    = 3%nat.
Proof.
  unfold confirm_member_in_group. cbv zeta.
  destruct (never_listed w) as (body & w1 & Hh & Hc).
  simpl. rewrite Hh. simpl. rewrite Hc. simpl.
  rewrite run_bind.
  destruct (confirm_loop_exhausted 2 false w1 eq_refl) as (Hres & Hl & Hs).
  rewrite Hres. simpl. rewrite app_nil_r.
  unfold listings in *. simpl. rewrite Hl, Hs. repeat split.
Qed.

End Never.

Lemma confirm_loop_raised retries success w :
  Exists (fun ev => is_listing (fst ev) = true /\ observed group ev = None)
         (calls (run h (confirm_loop client group retries success) w)) ->
  exists e, result (run h (confirm_loop client group retries success) w) = inl e.
Proof.
  revert w. funelim (confirm_loop client group retries success); intros w.
  - listing_cases h w code body e w1 E C success'; eauto.
    destruct (h (Sleep (5 # 100)) w1) as [r w2]; simpl.
    repeat rewrite Exists_cons. cbn [observed fst is_listing]. rewrite E, C.
    intros [[_ Hev] | [[Hev _] | Hev]]; try discriminate.
    match goal with IH : _ -> forall _, _ -> forall _, _ -> exists _, _ |- _ =>
      apply (IH body success' tt w2 Hev) end.
  - simpl. intros Hev. inversion Hev.
Qed.

Lemma polled_stops retry t :
  polled group retry t ->
  forall t1 ev t2, t = t1 ++ ev :: t2 ->
    is_listing (fst ev) = true -> observed group ev = None -> t2 = [].
Proof.
  induction 1 as [| retry ev0 Hl Ho | ev0 Ho | ev0 t Ho Ht IH | ev0 seen r t Ho Hs Ht IH];
    intros t1 ev t2 Heq Hlist Hnone.
  - destruct t1; discriminate.
  - destruct t1 as [| ? [| ? ?]]; try discriminate. injection Heq as _ <-. reflexivity.
  - destruct t1 as [| ? [| ? ?]]; try discriminate. injection Heq as _ <-. reflexivity.
  - destruct t1 as [| ev1 t1]; simpl in Heq; injection Heq as <- Heq.
    + congruence.
    + apply (IH _ _ _ Heq Hlist Hnone).
  - destruct t1 as [| ev1 [| ev2 t1]]; simpl in Heq.
    + injection Heq as <- _. congruence.
    + injection Heq as _ <- _. discriminate.
    + injection Heq as _ _ Heq. apply (IH _ _ _ Heq Hlist Hnone).
Qed.

(** A listing that fails is not retried: when a list_all_my_groups of the
    wait raises, comes back with a status other than 200 or with
    something the group cannot be looked for in, that call is the last
    one and the wait raises. *)
Theorem confirm_member_in_group_does_not_retry_a_failure w t1 ev t2 :
  calls (run h (confirm_member_in_group client group) w) = t1 ++ ev :: t2 ->
  is_listing (fst ev) = true ->
  observed group ev = None ->
  t2 = [] /\ exists e, result (run h (confirm_member_in_group client group) w) = inl e.
Proof.
  unfold confirm_member_in_group. cbv zeta. simpl.
  destruct (h (ListAllMyGroups client 200) w) as [[code body | e] w1]; simpl.
  2:{ intros Heq _ _. split; [| eauto].
      destruct t1 as [| ? [| ? ?]]; try discriminate. injection Heq as _ <-. reflexivity. }
  unfold assert_that_is. destruct (code =? 200) eqn:E; simpl.
  2:{ intros Heq _ _. split; [| eauto].
      destruct t1 as [| ? [| ? ?]]; try discriminate. injection Heq as _ <-. reflexivity. }
  destruct (contains body group) as [e | success] eqn:C; simpl.
  { intros Heq _ _. split; [| eauto].
    destruct t1 as [| ? [| ? ?]]; try discriminate. injection Heq as _ <-. reflexivity. }
  rewrite run_bind.
  pose proof (confirm_loop_polled h client group 2 success w1) as Hloop.
  pose proof (confirm_loop_raised 2 success w1) as Hraise.
  destruct (run h (confirm_loop client group 2 success) w1) as [[e | success'] w2 t] eqn:R;
    simpl in *.
  - intros Heq Hlist Hnone. split; [| eauto].
    destruct t1 as [| ev1 t1]; simpl in Heq; injection Heq as <- Heq.
    + cbn [observed] in Hnone. rewrite E, C in Hnone. discriminate.
    + apply (polled_stops _ _ Hloop _ _ _ Heq Hlist Hnone).
  - assert (Ht : calls (run h (assert_that_is_bool success' true) w2) = []).
    { unfold assert_that_is_bool. destruct (Bool.eqb success' true); reflexivity. }
    rewrite Ht, app_nil_r. intros Heq Hlist Hnone.
    destruct t1 as [| ev1 t1]; simpl in Heq; injection Heq as <- Heq.
    + cbn [observed] in Hnone. rewrite E, C in Hnone. discriminate.
    + exfalso. destruct Hraise as [e He]; [| discriminate].
      rewrite Heq. apply Exists_app. right. apply Exists_cons_hd. auto.
Qed.

End MorePoller.

Lemma confirm_member_in_group_sees_the_canonical_group :
  let o := run Service.service
             (confirm_member_in_group (ok_vinyldns_client (new_context sample_context))
                                      Service.canonical_group)
             Service.baseline in
  result o = inr tt /\
  Exists (fun ev => observed Service.canonical_group ev = Some true) (calls o).
Proof.
  intros o. split; [vm_compute; reflexivity |].
  apply (confirm_member_in_group_returns_only_when_seen Service.service).
  vm_compute; reflexivity.
Defined.

Lemma confirm_member_in_group_gives_up_on_the_unaware :
  (forall w : unit,
     exists body w',
       unaware (ListAllMyGroups (ok_vinyldns_client (new_context sample_context)) 200) w
         = (Reply 200 body, w') /\
       contains body stranger = inr false) /\
  result (run unaware
              (confirm_member_in_group (ok_vinyldns_client (new_context sample_context))
                                       stranger) tt) = inl AssertionError.
Proof.
  assert (Hnever : forall w : unit,
            exists body w',
              unaware (ListAllMyGroups (ok_vinyldns_client (new_context sample_context)) 200) w
                = (Reply 200 body, w') /\
              contains body stranger = inr false).
  { intros w. exists (VList []), w. split; reflexivity. }
  split; [exact Hnever |].
  apply (confirm_member_in_group_gives_up unaware
           (ok_vinyldns_client (new_context sample_context)) stranger Hnever tt).
Defined.

Lemma a_refused_listing_is_not_retried :
  let client := ok_vinyldns_client (new_context sample_context) in
  let refused := (ListAllMyGroups client 200, Reply 401 VNone) in
  let o := run scripted (confirm_member_in_group client stranger)
               [Reply 200 (VList []); Reply 401 VNone; Reply 200 (VList [stranger])] in
  calls o = [(ListAllMyGroups client 200, Reply 200 (VList []))] ++ refused :: [] /\
  is_listing (fst refused) = true /\
  observed stranger refused = None /\
  (@nil event = [] /\ exists e, result o = inl e).
Proof.
  intros client refused o.
  assert (Hcalls : calls o
                   = [(ListAllMyGroups client 200, Reply 200 (VList []))] ++ refused :: [])
    by (vm_compute; reflexivity).
  split; [exact Hcalls |].
  split; [reflexivity |].
  split; [reflexivity |].
  apply (confirm_member_in_group_does_not_retry_a_failure scripted client stranger
           _ _ _ _ Hcalls eq_refl eq_refl).
Defined.

(** ** The order of the zone calls, for any remote and any outcome *)

Lemma issues_impl {A : Type} (P Q : call -> Prop) (p : prog A) :
  (forall c, P c -> Q c) -> issues P p -> issues Q p.
Proof.
  intros HPQ Hp. induction Hp as [a | e | c k Hc Hk IH]; constructor; auto.
Qed.

Lemma issues_try_except {A : Type} (P : call -> Prop) (p : prog A) (g : exn -> prog A) :
  issues P p -> (forall e, issues P (g e)) -> issues P (try_except p g).
Proof.
  intros Hp Hg. induction Hp as [a | e | c k Hc Hk IH]; simpl.
  - constructor.
  - apply Hg.
  - constructor; assumption.
Qed.

Lemma quiet_select {W A : Type} (h : handler W) (p : prog A) w :
  issues quiet p -> select is_zone_call (calls (run h p w)) = [].
Proof.
  intros Hp. apply (select_other is_zone_call (fun c => negb (is_zone_call c))).
  - intros c Hc. apply negb_true_iff. exact Hc.
  - eapply Forall_impl; [| apply (issues_run quiet h p Hp w)].
    intros ev Hq. apply negb_true_iff. exact Hq.
Qed.

Lemma follows_lift {A B : Type} l (r : exn + A) (f : A -> prog B) :
  (forall a, follows l (f a)) -> follows l (bind (lift r) f).
Proof. intros Hf. destruct r as [e | a]; simpl; [constructor | apply Hf]. Qed.

Lemma follows_assert {B : Type} l (actual expected : Z) (f : unit -> prog B) :
  follows l (f tt) -> follows l (bind (assert_that_is actual expected) f).
Proof.
  intros Hf. unfold assert_that_is. destruct (actual =? expected); simpl;
    [exact Hf | constructor].
Qed.

Lemma follows_request_next {B : Type} (P : call -> Prop) l c (f : value -> prog B) :
  P c -> is_zone_call c = true -> (forall body, follows l (f body)) ->
  follows (P :: l) (bind (request c) f).
Proof.
  intros HP Hz Hf. simpl. apply follows_next; [exact HP | exact Hz |].
  intros [code body | e]; simpl; [| constructor].
  destruct (expected_status c) as [s |]; simpl; [| apply Hf].
  unfold assert_that_is. destruct (code =? s); simpl; [apply Hf | constructor].
Qed.

Lemma follows_perform_next {B : Type} (P : call -> Prop) l c (f : unit -> prog B) :
  P c -> is_zone_call c = true -> follows l (f tt) ->
  follows (P :: l) (bind (perform c) f).
Proof.
  intros HP Hz Hf. simpl. apply follows_next; [exact HP | exact Hz |].
  intros [code body | e]; simpl; [exact Hf | constructor].
Qed.

Lemma follows_matches {W A : Type} (h : handler W) l (p : prog A) :
  follows l p ->
  forall w, matches l (issued (select is_zone_call (calls (run h p w)))).
Proof.
  induction 1 as [l a | l e | l c k Hq Hk IH | P l c k HP Hz Hk IH]; intros w; simpl.
  - exists 0%nat. constructor.
  - exists 0%nat. constructor.
  - destruct (h c w) as [r w1]. simpl. unfold quiet in Hq. rewrite Hq. apply IH.
  - destruct (h c w) as [r w1]. simpl. rewrite Hz.
    destruct (IH r w1) as [n Hn]. exists (S n). simpl. constructor; assumption.
Qed.

Section Order.

Variable cfg : TestContext.
Variables primary secondary : VinylDNSClient.

Lemma in_script_follows {A : Type} (p : prog A) primary_group secondary_group :
  follows (script cfg primary secondary primary_group secondary_group) p ->
  in_script cfg primary secondary p.
Proof.
  intros Hp W h w. exists primary_group, secondary_group.
  apply follows_matches. exact Hp.
Qed.

Lemma in_script_bind_quiet {A B : Type} (p : prog A) (f : A -> prog B) :
  issues quiet p ->
  (forall a, in_script cfg primary secondary (f a)) ->
  in_script cfg primary secondary (bind p f).
Proof.
  intros Hp Hf W h w. rewrite run_bind.
  pose proof (quiet_select h p w Hp) as Hsel.
  destruct (result (run h p w)) as [e | a]; cbn [calls].
  - rewrite Hsel. exists VNone, VNone, 0%nat. constructor.
  - rewrite select_app, Hsel. apply Hf.
Qed.

Lemma in_script_try_except {A : Type} (p : prog A) (g : exn -> prog A) :
  in_script cfg primary secondary p ->
  (forall e, issues quiet (g e)) ->
  in_script cfg primary secondary (try_except p g).
Proof.
  intros Hp Hg W h w. rewrite run_try_except.
  destruct (result (run h p w)) as [e | a]; cbn [calls].
  - rewrite select_app, (quiet_select h (g e) _ (Hg e)), app_nil_r. apply Hp.
  - apply Hp.
Qed.

End Order.

Ltac follow :=
  repeat first
    [ apply follows_ret
    | apply follows_raise
    | apply follows_lift; intros ?
    | apply follows_assert
    | apply follows_request_next; [reflexivity | reflexivity | intros ?]
    | apply follows_perform_next; [eexists; reflexivity | reflexivity | ] ].

Lemma init_in_script (cfg : TestContext) :
  in_script cfg (ok_vinyldns_client (new_context cfg))
            (dummy_vinyldns_client (new_context cfg)) (__init__ cfg).
Proof.
  unfold __init__. cbv zeta.
  apply in_script_bind_quiet.
  { eapply issues_impl; [| apply tear_down_issues].
    intros [] H; try discriminate H; reflexivity. }
  intros _. apply in_script_try_except.
  2:{ intros e. unfold except_block.
      apply issues_bind; [| intros _; constructor].
      apply issues_try_except; [| intros _; constructor].
      eapply issues_impl; [| apply tear_down_issues].
      intros [] H; try discriminate H; reflexivity. }
  unfold try_block. cbv zeta.
  apply in_script_bind_quiet; [apply issues_request; reflexivity |].
  intros ok_group.
  apply in_script_bind_quiet.
  { eapply issues_impl; [| apply confirm_member_in_group_polls].
    intros [] [H | H]; try discriminate H; reflexivity. }
  intros _.
  apply in_script_bind_quiet; [apply issues_request; reflexivity |].
  intros dummy_group.
  apply in_script_bind_quiet.
  { eapply issues_impl; [| apply confirm_member_in_group_polls].
    intros [] [H | H]; try discriminate H; reflexivity. }
  intros _.
  destruct (getitem ok_group "id") as [e | ok_id].
  { apply (in_script_follows _ _ _ _ VNone VNone). constructor. }
  destruct (getitem dummy_group "id") as [e | dummy_id].
  - apply (in_script_follows _ _ _ _ ok_id VNone).
    unfold script, catalog. cbn [map app lift bind]. follow.
  - apply (in_script_follows _ _ _ _ ok_id dummy_id).
    unfold script, catalog. cbn [map app lift bind]. follow.
Qed.

(** Whatever the remote answers and however the constructor ends, its zone
    calls go through an initial segment of one fixed script: the eight
    creations of the catalog in its order, then the nine waits with the
    client of each, then the listing of the secondary and of the primary
    identity.  Nothing is created twice or out of order. *)
Theorem acquire_follows_its_script (cfg : TestContext) {W : Type} (h : handler W) w :
  exists ok_id dummy_id n,
    Forall2 (fun (P : call -> Prop) c => P c)
      (firstn n (script cfg (ok_vinyldns_client (new_context cfg))
                        (dummy_vinyldns_client (new_context cfg)) ok_id dummy_id))
      (issued (select is_zone_call (calls (run h (__init__ cfg) w)))).
Proof. apply (init_in_script cfg W h w). Qed.

Lemma firstn_In {A : Type} (n : nat) (l : list A) x : In x (firstn n l) -> In x l.
Proof.
  intros H. rewrite <- (firstn_skipn n l). apply in_or_app. left. exact H.
Qed.

Lemma Forall2_eq (l cs : list call) :
  Forall2 (fun (P : call -> Prop) c => P c) (map eq l) cs -> cs = l.
Proof.
  revert cs. induction l as [| x l IH]; intros cs H; inversion H; subst.
  - reflexivity.
  - f_equal. apply IH. assumption.
Qed.

Lemma matches_app (l1 l2 : list (call -> Prop)) cs :
  matches (l1 ++ l2) cs ->
  exists n cs1 cs2,
    cs = cs1 ++ cs2 /\
    Forall2 (fun (P : call -> Prop) c => P c) (firstn n l1) cs1 /\
    matches l2 cs2 /\
    (cs2 <> [] -> (length l1 <= n)%nat).
Proof.
  intros [n H]. rewrite firstn_app in H.
  apply Forall2_app_inv_l in H. destruct H as (cs1 & cs2 & H1 & H2 & ->).
  exists n, cs1, cs2. split; [reflexivity |]. split; [exact H1 |].
  split; [exists (n - length l1)%nat; exact H2 |].
  intros Hne.
  destruct (Nat.le_gt_cases (length l1) n) as [Hle | Hgt]; [exact Hle |].
  replace (n - length l1)%nat with 0%nat in H2 by lia.
  inversion H2. congruence.
Qed.

Lemma matches_none (p : call -> bool) (l : list (call -> Prop)) cs :
  Forall (fun P : call -> Prop => forall c, P c -> p c = false) l ->
  matches l cs -> filter p cs = [].
Proof.
  intros Hl [n H]. revert n cs H.
  induction Hl as [| P l HP Hl IH]; intros n cs H.
  - rewrite firstn_nil in H. inversion H. reflexivity.
  - destruct n as [| n]; simpl in H; inversion H; subst; simpl.
    + reflexivity.
    + rewrite (HP _ ltac:(eassumption)). eapply IH. eassumption.
Qed.

Lemma Forall2_all (p : call -> bool) (l : list (call -> Prop)) cs :
  Forall (fun P : call -> Prop => forall c, P c -> p c = true) l ->
  Forall2 (fun (P : call -> Prop) c => P c) l cs ->
  filter p cs = cs /\ length cs = length l.
Proof.
  intros Hl H. induction H as [| P c l cs HPc H IH]; simpl.
  - split; reflexivity.
  - inversion Hl as [| ? ? HP Hl']; subst.
    rewrite (HP c HPc). destruct (IH Hl') as [-> ->]. split; reflexivity.
Qed.

Lemma issued_select_twice (p q : call -> bool) (t : trace) :
  (forall c, p c = true -> q c = true) ->
  filter p (issued (select q t)) = issued (select p t).
Proof.
  intros Hpq. induction t as [| [c r] t IH]; simpl.
  - reflexivity.
  - destruct (q c) eqn:Eq; simpl.
    + destruct (p c); simpl; [f_equal |]; exact IH.
    + destruct (p c) eqn:Ep; [rewrite (Hpq c Ep) in Eq; discriminate | exact IH].
Qed.

Lemma in_issued_select (p : call -> bool) (t : trace) c :
  In c (issued t) -> p c = true -> In c (issued (select p t)).
Proof.
  unfold issued, select. intros Hin Hp.
  apply in_map_iff in Hin. destruct Hin as ([c' r] & <- & Hin).
  apply in_map_iff. exists (c', r). split; [reflexivity |].
  apply filter_In. auto.
Qed.

(** The phases of the constructor do not overlap, whatever the remote
    answers and however the constructor ends: when it has made a wait, it
    has made the eight creations of the catalog, all of them and only
    them; when it has listed zones, it has also made nine waits. *)
Theorem acquire_orders_its_phases (cfg : TestContext) {W : Type} (h : handler W) w c :
  In c (issued (calls (run h (__init__ cfg) w))) ->
  is_wait c = true \/ is_zone_listing c = true ->
  (exists ok_id dummy_id,
     issued (select is_creation (calls (run h (__init__ cfg) w)))
     = catalog cfg (ok_vinyldns_client (new_context cfg))
               (dummy_vinyldns_client (new_context cfg)) ok_id dummy_id) /\
  (is_zone_listing c = true ->
   length (select is_wait (calls (run h (__init__ cfg) w))) = 9%nat).
Proof.
  intros Hin Hkind.
  destruct (init_in_script cfg W h w) as (ok_id & dummy_id & Hm).
  set (t := calls (run h (__init__ cfg) w)) in *.
  assert (Hzone : is_zone_call c = true).
  { unfold is_zone_call. destruct Hkind as [-> | ->];
      [rewrite orb_true_r | rewrite orb_true_r]; reflexivity. }
  pose proof (in_issued_select is_zone_call t c Hin Hzone) as Hc.
  unfold script in Hm.
  apply matches_app in Hm.
  destruct Hm as (n & cs1 & cs2 & Heq & H1 & H2 & Hfull).
  rewrite firstn_map in H1. apply Forall2_eq in H1. subst cs1.
  assert (Hcat : forall x, In x (catalog cfg (ok_vinyldns_client (new_context cfg))
                                   (dummy_vinyldns_client (new_context cfg))
                                   ok_id dummy_id) ->
                           is_creation x = true).
  { intros x Hx. simpl in Hx.
    repeat (destruct Hx as [<- | Hx]; [reflexivity |]). contradiction. }
  assert (Hc2 : In c cs2).
  { rewrite Heq in Hc. apply in_app_or in Hc. destruct Hc as [Hc | Hc]; [| exact Hc].
    apply firstn_In in Hc. apply Hcat in Hc.
    destruct c; simpl in *; destruct Hkind; discriminate. }
  rewrite firstn_all2 in Heq
    by (apply Nat.le_trans with (2 := Hfull ltac:(intros ->; contradiction));
        rewrite length_map; reflexivity).
  assert (Hcre : issued (select is_creation t)
                 = catalog cfg (ok_vinyldns_client (new_context cfg))
                           (dummy_vinyldns_client (new_context cfg)) ok_id dummy_id).
  { rewrite <- (issued_select_twice is_creation is_zone_call t)
      by (intros x Hx; unfold is_zone_call; rewrite Hx; reflexivity).
    assert (Hcs2 : filter is_creation cs2 = []).
    { eapply matches_none; [| exact H2].
      repeat constructor; intros x Hx;
        first [subst x | destruct Hx as [? ->]]; reflexivity. }
    rewrite Heq, filter_app, Hcs2, app_nil_r. apply filter_all. exact Hcat. }
  split; [exists ok_id, dummy_id; exact Hcre |].
  intros Hlist.
  apply matches_app in H2.
  destruct H2 as (m & ws & ls & Heq2 & Hw & Hl & Hfull2).
  assert (Hws : forall x, In x ws -> is_wait x = true).
  { assert (Hall : Forall (fun P : call -> Prop => forall x, P x -> is_wait x = true)
                     (firstn m
                        [waits_on (ok_vinyldns_client (new_context cfg));
                         waits_on (ok_vinyldns_client (new_context cfg));
                         waits_on (dummy_vinyldns_client (new_context cfg));
                         waits_on (ok_vinyldns_client (new_context cfg));
                         waits_on (ok_vinyldns_client (new_context cfg));
                         waits_on (ok_vinyldns_client (new_context cfg));
                         waits_on (ok_vinyldns_client (new_context cfg));
                         waits_on (ok_vinyldns_client (new_context cfg));
                         waits_on (ok_vinyldns_client (new_context cfg))])).
    { apply Forall_forall. intros P HP. apply firstn_In in HP. simpl in HP.
      repeat (destruct HP as [<- | HP]; [intros x [change ->]; reflexivity |]).
      contradiction. }
    destruct (Forall2_all is_wait _ ws Hall Hw) as [Hf _].
    intros x Hx. rewrite <- Hf in Hx. apply filter_In in Hx. tauto. }
  assert (Hls : In c ls).
  { rewrite Heq2 in Hc2. apply in_app_or in Hc2. destruct Hc2 as [Hx | Hx]; [| exact Hx].
    apply Hws in Hx. destruct c; simpl in *; discriminate. }
  rewrite firstn_all2 in Hw by (apply Hfull2; intros ->; contradiction).
  assert (Hnine : filter is_wait ws = ws /\ length ws = 9%nat).
  { eapply (Forall2_all is_wait _ ws) in Hw; [exact Hw |].
    repeat constructor; intros x [change ->]; reflexivity. }
  rewrite <- (issued_length (select is_wait t)).
  rewrite <- (issued_select_twice is_wait is_zone_call t)
    by (intros x Hx; unfold is_zone_call; rewrite Hx, orb_true_r; reflexivity).
  assert (Hlw : filter is_wait ls = []).
  { eapply matches_none; [| exact Hl].
    repeat constructor; intros x Hx; subst x; reflexivity. }
  rewrite Heq, Heq2. repeat rewrite filter_app. rewrite Hlw.
  assert (Hcw : filter is_wait (catalog cfg (ok_vinyldns_client (new_context cfg))
                                        (dummy_vinyldns_client (new_context cfg))
                                        ok_id dummy_id) = []) by reflexivity.
  rewrite Hcw. destruct Hnine as [-> Hlen]. rewrite app_nil_r. exact Hlen.
Qed.

(** ** The groups of the fixture *)

Section Groups.

Variable cfg : TestContext.
Context {W : Type} (h : handler W).

Lemma try_block_groups self0 w self w' t :
  run h (try_block cfg self0) w = Outcome (inr self) w' t ->
  exists t1 t2,
    t = t1 ++ t2 /\
    select is_zone_call t1 = [] /\
    In (GetGroup (ok_vinyldns_client self0) (VStr "ok") 200, Reply 200 (ok_group self)) t1 /\
    In (CreateGroup (dummy_vinyldns_client self0) dummy_group_request 200,
        Reply 200 (dummy_group self)) t1 /\
    Exists (fun ev => observed (ok_group self) ev = Some true) t1 /\
    Exists (fun ev => observed (dummy_group self) ev = Some true) t1.
Proof.
  intros H. unfold try_block in H. cbv zeta in H.
  do 4 step H. do 24 step H. do 9 step H. do 8 step H.
  simpl in H. injection H as <- <- <-.
  repeat match goal with
  | Hc : forall s, expected_status _ = Some s -> ?c = s |- _ =>
      first [ pose proof (Hc _ eq_refl); subst c; clear Hc | clear Hc ]
  end.
  cbn [ok_group dummy_group].
  destruct a, a0.
  pose proof (confirm_member_in_group_calls h _ _ _ _ _ _ Hsub) as Hg.
  pose proof (confirm_member_in_group_calls h _ _ _ _ _ _ Hsub0) as Hg0.
  match type of Hsub with
  | run _ (confirm_member_in_group ?c ?g) ?w = _ =>
      pose proof (confirm_member_in_group_seen h c g w) as Hseen
  end.
  match type of Hsub0 with
  | run _ (confirm_member_in_group ?c ?g) ?w = _ =>
      pose proof (confirm_member_in_group_seen h c g w) as Hseen0
  end.
  rewrite Hsub in Hseen. rewrite Hsub0 in Hseen0.
  specialize (Hseen eq_refl). specialize (Hseen0 eq_refl).
  cbn [calls] in Hseen, Hseen0.
  match goal with
  | |- exists t1 t2, ?e1 :: ?ta ++ ?e2 :: ?tb ++ ?rest = _ /\ _ =>
      exists (e1 :: ta ++ e2 :: tb), rest
  end.
  split; [cbn [app]; rewrite <- app_assoc; reflexivity |].
  split.
  { apply (select_other is_zone_call is_group_call).
    - intros []; cbv; congruence.
    - constructor; [reflexivity |]. apply Forall_app. split; [assumption |].
      constructor; [reflexivity | assumption]. }
  split; [left; reflexivity |].
  split; [right; apply in_or_app; right; left; reflexivity |].
  split.
  - apply Exists_cons_tl. apply Exists_app. left. exact Hseen.
  - apply Exists_cons_tl. apply Exists_app. right. apply Exists_cons_tl. exact Hseen0.
Qed.

(** The group attributes of a fixture are what the service returned: the
    body of get_group("ok") and the body of the create_group of the
    dummy group, both with status 200; and before the constructor made
    its first zone call, a listing of each client passed the status check
    and held the group of that client. *)
Theorem acquire_confirms_both_memberships_first w self :
  result (run h (__init__ cfg) w) = inr self ->
  exists t1 t2,
    calls (run h (__init__ cfg) w) = t1 ++ t2 /\
    select is_zone_call t1 = [] /\
    In (GetGroup (ok_vinyldns_client self) (VStr "ok") 200, Reply 200 (ok_group self)) t1 /\
    In (CreateGroup (dummy_vinyldns_client self) dummy_group_request 200,
        Reply 200 (dummy_group self)) t1 /\
    Exists (fun ev => observed (ok_group self) ev = Some true) t1 /\
    Exists (fun ev => observed (dummy_group self) ev = Some true) t1.
Proof.
  intros H.
  destruct (run h (__init__ cfg) w) as [r w' t] eqn:E. simpl in H. subst r.
  cbn [calls].
  pose proof (init_ready cfg h _ _ _ _ E) as (_ & _ & _ & _ & _ & Hok & Hdummy).
  unfold __init__ in E. cbv zeta in E.
  apply step_sub in E. destruct E as ([] & w1 & tc & ts & Hclean & E & ->).
  rewrite run_try_except in E.
  destruct (run h (try_block cfg (new_context cfg)) w1) as [[e | self'] w2 t3] eqn:Htry;
    cbn [result final calls] in E.
  { rewrite except_block_run in E. discriminate. }
  injection E as <- <- <-.
  apply tear_down_calls in Hclean. destruct Hclean as [Hclean _].
  apply try_block_groups in Htry.
  destruct Htry as (t1 & t2 & -> & Hsel & Hget & Hcreate & Hs1 & Hs2).
  exists (tc ++ t1), t2.
  rewrite Hok, Hdummy.
  split; [apply app_assoc |].
  split.
  { rewrite select_app, Hsel, app_nil_r. apply select_issued.
    rewrite Hclean. reflexivity. }
  split; [apply in_or_app; right; exact Hget |].
  split; [apply in_or_app; right; exact Hcreate |].
  split; apply Exists_app; right; assumption.
Qed.

End Groups.

Lemma acquire_confirms_both_memberships_first_at_baseline :
  result ready_run = inr ready_fixture /\
  exists t1 t2,
    calls ready_run = t1 ++ t2 /\
    select is_zone_call t1 = [] /\
    In (GetGroup (ok_vinyldns_client ready_fixture) (VStr "ok") 200,
        Reply 200 (ok_group ready_fixture)) t1 /\
    In (CreateGroup (dummy_vinyldns_client ready_fixture) dummy_group_request 200,
        Reply 200 (dummy_group ready_fixture)) t1 /\
    Exists (fun ev => observed (ok_group ready_fixture) ev = Some true) t1 /\
    Exists (fun ev => observed (dummy_group ready_fixture) ev = Some true) t1.
Proof.
  split; [vm_compute; reflexivity |].
  apply (acquire_confirms_both_memberships_first sample_context Service.service
                                                 Service.baseline ready_fixture).
  vm_compute; reflexivity.
Defined.

Lemma acquire_orders_its_phases_at_baseline :
  let c := ListZones (ok_vinyldns_client (new_context sample_context)) in
  In c (issued (calls ready_run)) /\
  (is_wait c = true \/ is_zone_listing c = true) /\
  ((exists ok_id dummy_id,
      issued (select is_creation (calls ready_run))
      = catalog sample_context (ok_vinyldns_client (new_context sample_context))
                (dummy_vinyldns_client (new_context sample_context)) ok_id dummy_id) /\
   (is_zone_listing c = true ->
    length (select is_wait (calls ready_run)) = 9%nat)).
Proof.
  intros c.
  assert (Hin : In c (issued (calls ready_run))).
  { vm_compute. repeat (first [left; reflexivity | right]). }
  split; [exact Hin |].
  split; [right; reflexivity |].
  apply (acquire_orders_its_phases sample_context Service.service Service.baseline c Hin).
  right; reflexivity.
Defined.

(** ** Replies the constructor cannot read *)

Section Malformed.

Variable cfg : TestContext.
Context {W : Type} (h : handler W).

Lemma polls_well_formed (t : trace) :
  Forall (fun ev => polls (fst ev)) t -> Forall (fun ev => ~ malformed ev) t.
Proof.
  apply Forall_impl. intros [c r] [Hc | Hc]; destruct c; try discriminate Hc;
    destruct r; simpl; tauto.
Qed.

Lemma cleanup_well_formed (t : trace) :
  Forall (fun ev => is_cleanup (fst ev) = true) t -> Forall (fun ev => ~ malformed ev) t.
Proof.
  apply Forall_impl. intros [c r] Hc; destruct c; try discriminate Hc;
    destruct r; simpl; tauto.
Qed.

Lemma confirm_member_in_group_well_formed client group w :
  Forall (fun ev => ~ malformed ev) (calls (run h (confirm_member_in_group client group) w)).
Proof.
  apply polls_well_formed. apply (issues_run polls).
  apply confirm_member_in_group_polls.
Qed.

Lemma try_block_well_formed self0 w self w' t :
  run h (try_block cfg self0) w = Outcome (inr self) w' t ->
  Forall (fun ev => ~ malformed ev) t.
Proof.
  intros H. unfold try_block in H. cbv zeta in H.
  do 4 step H. do 24 step H. do 9 step H. do 8 step H.
  simpl in H. injection H as <- <- <-.
  repeat match goal with
  | Hc : forall s, expected_status _ = Some s -> _ = s |- _ => clear Hc
  end.
  match type of Hsub with
  | run _ (confirm_member_in_group ?c ?g) ?w = _ =>
      pose proof (confirm_member_in_group_well_formed c g w) as Hg
  end.
  match type of Hsub0 with
  | run _ (confirm_member_in_group ?c ?g) ?w = _ =>
      pose proof (confirm_member_in_group_well_formed c g w) as Hg0
  end.
  rewrite Hsub in Hg. rewrite Hsub0 in Hg0. cbn [calls] in Hg, Hg0.
  repeat first
    [ apply Forall_nil
    | apply Forall_app; split; [assumption |]
    | apply Forall_cons;
      [ cbn [malformed];
        first [ tauto
              | intros [e He]; congruence
              | intros [[e He] | (zs & e & Hz & He)]; congruence ] | ] ].
Qed.

(** A reply the constructor cannot read is fatal: where the service has
    answered get_group or create_group with a body without 'id',
    create_zone with a body without 'zone', or list_zones with a body
    without 'zones' or with 'zones' that have no length, the constructor
    raises, whatever the status of that reply. *)
Theorem acquire_raises_on_a_malformed_reply w ev :
  In ev (calls (run h (__init__ cfg) w)) ->
  malformed ev ->
  exists e, result (run h (__init__ cfg) w) = inl e.
Proof.
  intros Hin Hbad.
  destruct (run h (__init__ cfg) w) as [[e | self] w' t] eqn:E;
    [exists e; reflexivity |].
  exfalso. cbn [calls] in Hin.
  unfold __init__ in E. cbv zeta in E.
  apply step_sub in E. destruct E as ([] & w1 & tc & ts & Hclean & E & ->).
  rewrite run_try_except in E.
  destruct (run h (try_block cfg (new_context cfg)) w1) as [[e | self'] w2 t3] eqn:Htry;
    cbn [result final calls] in E.
  { rewrite except_block_run in E. discriminate. }
  injection E as <- <- <-.
  apply try_block_well_formed in Htry.
  pose proof (issues_run _ h _ (tear_down_issues (new_context cfg)) w) as Hc.
  rewrite Hclean in Hc. cbn [calls] in Hc. apply cleanup_well_formed in Hc.
  apply in_app_or in Hin. rewrite Forall_forall in Hc, Htry.
  destruct Hin as [Hin | Hin]; [apply (Hc ev Hin Hbad) | apply (Htry ev Hin Hbad)].
Qed.

End Malformed.

Lemma acquire_raises_on_a_group_without_id :
  let ev := (GetGroup (ok_vinyldns_client (new_context sample_context)) (VStr "ok") 200,
             Reply 200 (VDict [("name", VStr "ok")])) in
  let script := [Reply 200 VNone; Reply 200 VNone; Reply 200 VNone; Reply 200 VNone;
                 Reply 200 Service.canonical_group;
                 Reply 200 (VDict [("name", VStr "ok")]);
                 Reply 200 (VList [VDict [("name", VStr "ok")]]);
                 Reply 200 (VDict [("id", VInt 7)]);
                 Reply 200 (VList [VDict [("id", VInt 7)]])] in
  In ev (calls (run scripted (__init__ sample_context) script)) /\
  malformed ev /\
  result (run scripted (__init__ sample_context) script) = inl (KeyError "id") /\
  exists e, result (run scripted (__init__ sample_context) script) = inl e.
Proof.
  intros ev script.
  assert (Hin : In ev (calls (run scripted (__init__ sample_context) script))).
  { vm_compute. repeat (first [left; reflexivity | right]). }
  assert (Hbad : malformed ev).
  { exists (KeyError "id"). reflexivity. }
  split; [exact Hin |]. split; [exact Hbad |].
  split; [vm_compute; reflexivity |].
  apply (acquire_raises_on_a_malformed_reply sample_context scripted script ev Hin Hbad).
Defined.

(** ** How long the constructor can poll *)

Section Tally.

Context {W : Type} (h : handler W).
Variable P : call -> bool.

Lemma tally_bind {A B : Type} (p : prog A) (f : A -> prog B) n m :
  (forall w, tally P (calls (run h p w)) <= n)%nat ->
  (forall a w, tally P (calls (run h (f a) w)) <= m)%nat ->
  forall w, (tally P (calls (run h (bind p f) w)) <= n + m)%nat.
Proof.
  intros Hp Hf w. rewrite run_bind. specialize (Hp w).
  destruct (result (run h p w)) as [e | a]; cbn [calls].
  - lia.
  - unfold tally in *. rewrite select_app, length_app.
    specialize (Hf a (final (run h p w))). lia.
Qed.

Lemma tally_try_except {A : Type} (p : prog A) (g : exn -> prog A) n m :
  (forall w, tally P (calls (run h p w)) <= n)%nat ->
  (forall e w, tally P (calls (run h (g e) w)) <= m)%nat ->
  forall w, (tally P (calls (run h (try_except p g) w)) <= n + m)%nat.
Proof.
  intros Hp Hg w. rewrite run_try_except. specialize (Hp w).
  destruct (result (run h p w)) as [e | a]; cbn [calls].
  - unfold tally in *. rewrite select_app, length_app.
    specialize (Hg e (final (run h p w))). lia.
  - lia.
Qed.

Lemma tally_none {A : Type} (p : prog A) :
  issues (fun c => P c = false) p ->
  forall w, (tally P (calls (run h p w)) <= 0)%nat.
Proof.
  intros Hp w. unfold tally.
  rewrite (select_other P (fun c => negb (P c))).
  - simpl. lia.
  - intros c Hc. apply negb_true_iff. exact Hc.
  - eapply Forall_impl; [| apply (issues_run _ h p Hp w)].
    intros ev Hq. apply negb_true_iff. exact Hq.
Qed.

End Tally.

Lemma issues_assert_that_is (P : call -> Prop) (actual expected : Z) :
  issues P (assert_that_is actual expected).
Proof. unfold assert_that_is. destruct (actual =? expected); constructor. Qed.

Ltac issue :=
  repeat first
    [ apply issues_ret
    | apply issues_raise
    | apply issues_lift
    | apply issues_assert_that_is
    | apply issues_request; reflexivity
    | apply issues_perform; reflexivity
    | apply issues_bind; [| intros ?] ].

Lemma try_block_tally (cfg : TestContext) {W : Type} (h : handler W) (P : call -> bool) n self :
  (forall c, is_zone_call c = true -> P c = false) ->
  (forall c s, P (GetGroup c (VStr "ok") s) = false) ->
  (forall c g s, P (CreateGroup c g s) = false) ->
  (forall client group w,
     (tally P (calls (run h (confirm_member_in_group client group) w)) <= n)%nat) ->
  forall w, (tally P (calls (run h (try_block cfg self) w)) <= n + n)%nat.
Proof.
  intros Hzone Hget Hcreate Hconfirm. unfold try_block. cbv zeta.
  intros w.
  apply Nat.le_trans with (m := (0 + (n + (0 + (n + 0))))%nat); [| lia].
  revert w. apply tally_bind.
  { apply tally_none. apply issues_request. apply Hget. }
  intros ok_group. apply tally_bind; [apply Hconfirm |].
  intros _. apply tally_bind.
  { apply tally_none. apply issues_request. apply Hcreate. }
  intros dummy_group. apply tally_bind; [apply Hconfirm |].
  intros _. apply tally_none.
  eapply issues_impl; [exact Hzone |]. issue.
Qed.

Lemma init_tally (cfg : TestContext) {W : Type} (h : handler W) (P : call -> bool) n :
  (forall c, is_zone_call c = true -> P c = false) ->
  (forall c, is_cleanup c = true -> P c = false) ->
  (forall c s, P (GetGroup c (VStr "ok") s) = false) ->
  (forall c g s, P (CreateGroup c g s) = false) ->
  (forall client group w,
     (tally P (calls (run h (confirm_member_in_group client group) w)) <= n)%nat) ->
  forall w, (tally P (calls (run h (__init__ cfg) w)) <= n + n)%nat.
Proof.
  intros Hzone Hclean Hget Hcreate Hconfirm w. unfold __init__. cbv zeta.
  apply Nat.le_trans with (m := (0 + ((n + n) + 0))%nat); [| lia].
  revert w. apply tally_bind.
  { apply tally_none. eapply issues_impl; [exact Hclean | apply tear_down_issues]. }
  intros _. apply tally_try_except.
  { apply try_block_tally; assumption. }
  intros e. apply tally_none. unfold except_block.
  apply issues_bind; [| intros _; constructor].
  apply issues_try_except; [| intros _; constructor].
  eapply issues_impl; [exact Hclean | apply tear_down_issues].
Qed.

(** The constructor polls within fixed bounds, whatever the remote does
    and however it ends: it lists groups at most 8 times and sleeps at
    most 6 times, so that it adds at most 300 ms of sleeping of its own
    to a setup. *)
Theorem acquire_is_bounded (cfg : TestContext) {W : Type} (h : handler W) w :
  (listings (calls (run h (__init__ cfg) w)) <= 8)%nat /\
  (sleeps (calls (run h (__init__ cfg) w)) <= 6)%nat.
Proof.
  split.
  - apply (init_tally cfg h is_listing 4); try (intros []; cbv; congruence);
      try reflexivity.
    intros client group w0.
    destruct (confirm_member_in_group_bounds h client group w0) as [[_ H] _]. exact H.
  - apply (init_tally cfg h is_sleep 3); try (intros []; cbv; congruence);
      try reflexivity.
    intros client group w0.
    destruct (confirm_member_in_group_bounds h client group w0) as [[_ H] H'].
    unfold tally. lia.
Qed.
